(** * The diversity agent of Auto-weighter ([agents/diversity.py])

    A shallow embedding of [create_llm_diversity_agent] and of the node it
    returns, [diversity_agent_node]: the statistics over the history window,
    the two prompts, the retry loop around the language model, the fallback
    and the assembly of the new pool.

    Numbers are IEEE binary64 values, as in NumPy's [float64]; the state is a
    Python [dict] with string keys; the language model is a stateful callable
    whose state is threaded explicitly. *)

From Stdlib Require Import ZArith List Ascii String PrimFloat FloatOps SpecFloat.
From stdpp Require Import gmap strings list pretty.

#[local] Set Warnings "-register-all".
Local Open Scope string_scope.
Local Open Scope Z_scope.

(** ** Exceptions and fallible computations *)

Inductive exn :=
| KeyError        (* a required key is missing *)
| AttributeError  (* [.shape] of something that is not an array *)
| IndexError      (* [shape[i]] past the number of dimensions *)
| TypeError
| ValueError
| OverflowError   (* an int too large for a float *)
| AxisError       (* [axis=0] of a 0-d array *)
| Unsupported.    (* the state holds, under a key the node reads, an object of
                     a kind that is not modelled at that place; the embedding
                     stops there and says nothing about Python *)

Inductive result (A : Type) :=
| Ok (a : A)
| Raise (e : exn).
Arguments Ok {A} a.
Arguments Raise {A} e.

#[global] Instance result_ret : MRet result := fun A a => Ok a.
#[global] Instance result_bind : MBind result :=
  fun A B f r => match r with Ok a => f a | Raise e => Raise e end.

Definition is_ok {A} (r : result A) : bool :=
  match r with Ok _ => true | Raise _ => false end.

(** [[f(x) for x in l]], stopping at the first exception. *)
Fixpoint map_result {A B} (f : A -> result B) (l : list A) : result (list B) :=
  match l with
  | [] => Ok []
  | x :: l' =>
      match f x with
      | Raise e => Raise e
      | Ok y => match map_result f l' with
                | Raise e => Raise e
                | Ok ys => Ok (y :: ys)
                end
      end
  end.

(** ** Python values *)

(** What [ast.literal_eval] can return.  A [PDict] lists the items of the
    dict in insertion order; its keys are pairwise distinct. *)
Inductive pyval :=
| PInt (z : Z)
| PFloat (f : float)
| PComplex (re im : float)
| PBool (b : bool)
| PStr (s : string)
| PBytes (s : string)
| PNone
| PEllipsis
| PTuple (l : list pyval)
| PList (l : list pyval)
| PSet (l : list pyval)
| PDict (kvs : list (pyval * pyval)).

(** A NumPy array of [float64] stored in C order: its shape and its elements
    in row-major order. *)
Record ndarray := mk_ndarray { shape : list nat; data : list float }.

Definition product (l : list nat) : nat := fold_right Nat.mul 1%nat l.
Definition ndim (a : ndarray) : nat := length (shape a).
Definition well_shaped (a : ndarray) : Prop :=
  length (data a) = product (shape a).

(** The objects held by the state. *)
Inductive pyobj :=
| OInt (z : Z)
| OFloat (f : float)
| OStr (s : string)
| ONone
| OList (l : list pyobj)
| OTuple (l : list pyobj)
| ODict (m : gmap string pyobj)
| OArr (a : ndarray).

(** ** The Python runtime and the repository's formatting helper

    Text-level library functions are taken as they are: the development is
    parametric in them. *)
Class Runtime := {
  (** [s.strip()] *)
  str_strip : string -> string;
  (** [ast.literal_eval(s)]; [None] when it raises *)
  literal_eval : string -> option pyval;
  (** [float(s)] for a [str] or [bytes]; [None] when it raises [ValueError] *)
  float_of_str : string -> option float;
  (** [str(x)] of a Python float, as an f-string prints it *)
  float_repr : float -> string;
  (** [utils.NSGA_related.arr2str(a, decimals=d, max_rows=m)], a module of the
      repository that the node imports; an omitted keyword is [None] *)
  arr2str : pyobj -> option Z -> option Z -> string
}.

(** ** NumPy *)

(** The float nearest to an integer, ties to even; an infinity when the
    integer is out of range. *)
Definition float_of_Z (z : Z) : float :=
  SF2Prim (binary_normalize prec emax z 0 false).

(** The number of reduced items, as NumPy divides by it. *)
Definition float_of_count (n : nat) : float := float_of_Z (Z.of_nat n).

(** [float(z)] of a Python int. *)
Definition float_of_int (z : Z) : result float :=
  let f := float_of_Z z in
  if is_infinity f then Raise OverflowError else Ok f.

(** [a[i:]] on a sequence of [len] elements: the index where the slice
    starts. *)
Definition slice_start (len : nat) (i : Z) : nat :=
  if i <? 0 then Z.to_nat (Z.max (Z.of_nat len + i) 0)
  else Nat.min (Z.to_nat i) len.

(** [a[i:]] on an array with at least one dimension. *)
Definition arr_slice_from (a : ndarray) (i : Z) : result ndarray :=
  match shape a with
  | [] => Raise IndexError
  | k :: rest =>
      let start := slice_start k i in
      Ok {| shape := (k - start)%nat :: rest;
            data := drop (start * product rest) (data a) |}
  end.

(** [a.shape[i]] *)
Definition shape_at (o : pyobj) (i : nat) : result nat :=
  match o with
  | OArr a => match shape a !! i with
              | Some n => Ok n
              | None => Raise IndexError
              end
  | _ => Raise AttributeError
  end.

(** The [k] sub-arrays along axis 0, each of [stride] elements. *)
Fixpoint chunks (k stride : nat) (d : list float) : list (list float) :=
  match k with
  | O => []
  | S k' => take stride d :: chunks k' stride (drop stride d)
  end.

Definition vadd (u v : list float) : list float := zip_with PrimFloat.add u v.
Definition vsub (u v : list float) : list float := zip_with PrimFloat.sub u v.
Definition vmul (u v : list float) : list float := zip_with PrimFloat.mul u v.
Definition vdiv (u : list float) (n : float) : list float :=
  map (fun x => PrimFloat.div x n) u.

(** NumPy's pairwise summation of a run of elements that lie next to each
    other in memory ([pairwise_sum] of [loops_utils.h.src]).  Whole blocks of
    8 elements go into 8 accumulators, which are then added as a tree, and
    what is left is added in order. *)
Fixpoint accumulate8 (r0 r1 r2 r3 r4 r5 r6 r7 : float) (a : list float) : float :=
  match a with
  | x0 :: x1 :: x2 :: x3 :: x4 :: x5 :: x6 :: x7 :: a' =>
      accumulate8 (r0 + x0)%float (r1 + x1)%float (r2 + x2)%float
                  (r3 + x3)%float (r4 + x4)%float (r5 + x5)%float
                  (r6 + x6)%float (r7 + x7)%float a'
  | _ =>
      fold_left PrimFloat.add a
        (((r0 + r1) + (r2 + r3)) + ((r4 + r5) + (r6 + r7)))%float
  end.

(** Fewer than 8 elements are added in order; up to 128 elements go through
    the accumulators; more are split into two runs, the first a multiple of
    8 long, which are summed apart.  A run of more than 128 elements takes
    one unit of [fuel] for the split. *)
Fixpoint pairwise_sum (fuel : nat) (a : list float) : float :=
  match a with
  | r0 :: r1 :: r2 :: r3 :: r4 :: r5 :: r6 :: r7 :: a' =>
      let n := length a in
      if (n <=? 128)%nat then accumulate8 r0 r1 r2 r3 r4 r5 r6 r7 a'
      else
        match fuel with
        | O => fold_left PrimFloat.add a PrimFloat.zero
        | S fuel' =>
            let n2 := (n / 2)%nat in
            let n2 := (n2 - n2 mod 8)%nat in
            (pairwise_sum fuel' (take n2 a) + pairwise_sum fuel' (drop n2 a))%float
        end
  | _ => fold_left PrimFloat.add a PrimFloat.zero
  end.

(** The length of the run is enough fuel ([pairwise_sum_fuel]). *)
Definition np_pairwise_sum (a : list float) : float :=
  pairwise_sum (length a) a.

(** [np.add.reduce(a, axis=0)] over the [k] sub-arrays, of [stride] elements
    each, of an array stored in C order.  The result starts at zero, the
    identity of the sum.  With [stride = 1] the reduced axis is contiguous in
    memory and its elements are added pairwise; otherwise the sub-arrays are
    added to the result one after the other. *)
Definition umr_sum (stride : nat) (rows : list (list float)) : list float :=
  if Nat.eqb stride 1
  then [ (PrimFloat.zero + np_pairwise_sum (concat rows))%float ]
  else fold_left vadd rows (replicate stride PrimFloat.zero).

(** [np.std(a, axis=0)] with the default [ddof=0], after NumPy's [_var] and
    [_std]: mean, squared deviations, their mean, square root.  (Whether a
    sum of zeros comes out as [0.0] or [-0.0] has changed between versions
    of NumPy; the square root at the end is the same for both.) *)
Definition np_std_axis0 (a : ndarray) : result ndarray :=
  match shape a with
  | [] => Raise AxisError
  | k :: rest =>
      let stride := product rest in
      let arr := chunks k stride (data a) in
      let rcount := float_of_count k in
      let arrmean := vdiv (umr_sum stride arr) rcount in
      let x := map (fun r => vsub r arrmean) arr in
      let x := map (fun r => vmul r r) x in
      let ret := vdiv (umr_sum stride x) rcount in
      Ok {| shape := rest; data := map PrimFloat.sqrt ret |}
  end.

(** [np.minimum] and [np.maximum] on two floats: a NaN wins. *)
Definition np_minimum (a b : float) : float :=
  if is_nan a then a else if (a <? b)%float then a else b.
Definition np_maximum (a b : float) : float :=
  if is_nan a then a else if (b <? a)%float then a else b.

Definition reduce_float (op : float -> float -> float) (d : list float)
  : result float :=
  match d with
  | [] => Raise ValueError
  | x :: d' => Ok (fold_left op d' x)
  end.

(** [float(np.min(o))] and [float(np.max(o))] for a scalar or an array. *)
Definition float_np_reduce (op : float -> float -> float) (o : pyobj)
  : result float :=
  match o with
  | OInt z => float_of_int z
  | OFloat f => Ok f
  | OArr a => reduce_float op (data a)
  | _ => Raise Unsupported
  end.

(** A scalar element of [np.array(..., dtype=float)]. *)
Definition scalar_to_float {rt : Runtime} (v : pyval) : result float :=
  match v with
  | PInt z => float_of_int z
  | PFloat f => Ok f
  | PBool b => Ok (if b then PrimFloat.one else PrimFloat.zero)
  | PStr s | PBytes s =>
      match float_of_str s with
      | Some f => Ok f
      | None => Raise ValueError
      end
  | PNone => Ok PrimFloat.nan
  | _ => Raise TypeError
  end.

(** Sub-arrays of one shape become one array with a new leading axis. *)
Definition stack_subarrays (subs : list ndarray) : result ndarray :=
  match subs with
  | [] => Ok {| shape := [0%nat]; data := [] |}
  | a :: _ =>
      if forallb (fun b => bool_decide (shape b = shape a)) subs
      then Ok {| shape := length subs :: shape a;
                 data := concat (map data subs) |}
      else Raise ValueError
  end.

(** [np.array(v, dtype=float)]: lists and tuples are dimensions, everything
    else is an element.  When several exceptions apply, which one NumPy
    reports is not tracked. *)
Fixpoint np_array_float {rt : Runtime} (v : pyval) : result ndarray :=
  match v with
  | PList l | PTuple l =>
      match map_result np_array_float l with
      | Raise e => Raise e
      | Ok subs => stack_subarrays subs
      end
  | _ =>
      match scalar_to_float v with
      | Raise e => Raise e
      | Ok x => Ok {| shape := []; data := [x] |}
      end
  end.

Definition atleast_2d (a : ndarray) : ndarray :=
  match shape a with
  | [] => {| shape := [1%nat; 1%nat]; data := data a |}
  | [n] => {| shape := [1%nat; n]; data := data a |}
  | _ => a
  end.

(** [np.vstack(arrs)] *)
Definition np_vstack (arrs : list ndarray) : result ndarray :=
  match map atleast_2d arrs with
  | [] => Raise ValueError
  | a :: rest =>
      if forallb (fun b => bool_decide (tail (shape b) = tail (shape a))) rest
      then Ok {| shape := fold_right (fun b n => hd 0 (shape b) + n)%nat 0%nat
                                     (a :: rest)
                          :: tail (shape a);
                 data := concat (map data (a :: rest)) |}
      else Raise ValueError
  end.

(** ** Dicts *)

(** [state[k]] *)
Definition getitem (state : gmap string pyobj) (k : string) : result pyobj :=
  match state !! k with
  | Some o => Ok o
  | None => Raise KeyError
  end.

(** [state.get(k, d)] *)
Definition dict_get_default (state : gmap string pyobj) (k : string) (d : pyobj)
  : pyobj :=
  default d (state !! k).

(** [item[k]] for a string key [k] of a literal dict. *)
Fixpoint lit_getitem (kvs : list (pyval * pyval)) (k : string) : option pyval :=
  match kvs with
  | [] => None
  | (PStr s, v) :: kvs' => if String.eqb s k then Some v else lit_getitem kvs' k
  | _ :: kvs' => lit_getitem kvs' k
  end.

(** [k in item] *)
Definition lit_contains (kvs : list (pyval * pyval)) (k : string) : bool :=
  match lit_getitem kvs k with Some _ => true | None => false end.

(** ** The schema check of the retry loop *)

(** The conjunction tested for each [item] of the parsed response.  A
    literal is never an [np.ndarray], so [isinstance(item['values'], (list,
    tuple, np.ndarray))] is the test for a list or a tuple. *)
Definition item_valid (n_vars : nat) (item : pyval) : bool :=
  match item with
  | PDict kvs =>
      lit_contains kvs "values"
      && lit_contains kvs "rationale"
      && match lit_getitem kvs "values" with
         | Some (PList l) | Some (PTuple l) => Nat.eqb (length l) n_vars
         | _ => false
         end
  | _ => false
  end.

(** The body of the [try]: [sets] after it, [None] when the text does not
    parse or the parsed value is not valid. *)
Definition validate {rt : Runtime} (n_vars pool_size : nat) (result : string)
  : option (list pyval) :=
  match literal_eval (str_strip result) with
  | Some (PList sets) =>
      if forallb (item_valid n_vars) sets && Nat.eqb (length sets) pool_size
      then Some sets
      else None
  | _ => None
  end.

(** [item['values']] of a validated item. *)
Definition item_values (item : pyval) : result pyval :=
  match item with
  | PDict kvs =>
      match lit_getitem kvs "values" with
      | Some v => Ok v
      | None => Raise KeyError
      end
  | _ => Raise TypeError
  end.

(** [item['rationale']] of a validated item. *)
Definition item_rationale (item : pyval) : result pyval :=
  match item with
  | PDict kvs =>
      match lit_getitem kvs "rationale" with
      | Some v => Ok v
      | None => Raise KeyError
      end
  | _ => Raise TypeError
  end.

(** ** [str] of a literal value *)

(** [sys.int_max_str_digits], at its default: the interpreter (Python 3.11
    and later) refuses to write an int of more decimal digits. *)
Definition int_max_str_digits : Z := 4300.

(** An int below [2^14284] is below [10^4300]: the first test spares the
    power for the ints that are far from the limit
    ([int_str_raises_limit]). *)
Definition int_str_raises (z : Z) : bool :=
  if Z.log2 (Z.abs z) <? 14284 then false
  else 10 ^ int_max_str_digits <=? Z.abs z.

(** Whether [repr(v)] raises.  The text of a tuple, list, set or dict holds
    the [repr] of its elements, so it raises when one of them does. *)
Fixpoint repr_raises (v : pyval) : bool :=
  match v with
  | PInt z => int_str_raises z
  | PTuple l | PList l | PSet l => existsb repr_raises l
  | PDict kvs =>
      existsb (fun kv => let '(k, x) := kv in repr_raises k || repr_raises x)
              kvs
  | _ => false
  end.

(** [str(v)]: [ValueError] when the text cannot be written.  The node does
    not use the text itself, so only the fact that [str] returned is
    kept. *)
Definition py_str (v : pyval) : result unit :=
  if repr_raises v then Raise ValueError else Ok tt.

(** ** The prompts *)

Definition nl : string := String "010"%char EmptyString.

(** [f"{o}"] for the objects an f-string of the node may meet. *)
Definition py_format {rt : Runtime} (o : pyobj) : result string :=
  match o with
  | OInt z => Ok (pretty z)
  | OFloat f => Ok (float_repr f)
  | OStr s => Ok s
  | ONone => Ok "None"
  | _ => Raise Unsupported
  end.

(** [lower, upper = bounds] *)
Definition unpack_bounds (bounds : pyobj) : result (pyobj * pyobj) :=
  match bounds with
  | OTuple [lower; upper] | OList [lower; upper] => Ok (lower, upper)
  | OTuple _ | OList _ => Raise ValueError
  | OArr a =>
      match shape a with
      | [] => Raise TypeError
      | k :: rest =>
          if Nat.eqb k 2
          then let stride := product rest in
               Ok (OArr {| shape := rest; data := take stride (data a) |},
                   OArr {| shape := rest;
                           data := take stride (drop stride (data a)) |})
          else Raise ValueError
      end
  | OInt _ | OFloat _ => Raise TypeError
  | _ => Raise Unsupported
  end.

Definition bounds_str {rt : Runtime} (bounds : pyobj) : result string :=
  match bounds with
  | ONone => Ok "[0, 1]"
  | _ =>
      '(lower, upper) ← unpack_bounds bounds;
      lo ← float_np_reduce np_minimum lower;
      hi ← float_np_reduce np_maximum upper;
      Ok ("[" +:+ float_repr lo +:+ ", " +:+ float_repr hi +:+ "]")
  end.

Definition system_message_text (n_vars n_objs : nat)
    (most_recent bounds_str budget : string) (pool_size : nat) : string :=
  String.concat "" [
    "System: You are a diversity agent for a multi-objective evolutionary algorithm."; nl; nl;
    "Your task:"; nl;
    "- make edits to the current sets in the pool that increase exploration while respecting bounds."; nl;
    "- Focus on spreading values in parameters with low diversity and stabilizing those with very high diversity."; nl;
    "- Avoid collapsing parameters to extremes (0 or max)."; nl; nl;
    "Problem summary:"; nl;
    "- Each candidate has "; pretty n_vars; " parameters (σ_k per dataset)."; nl;
    "- Each solution yields "; pretty n_objs; " objectives (RMS errors e_k, lower is better)."; nl; nl;
    "Provided data you can use:"; nl;
    "1) Full parent pool and objectives (current generation)."; nl;
    "2) The statistics for the most recent "; most_recent; " sets."; nl;
    "   • Diversity scores per parameter computed from ALL candidates."; nl;
    "   • Array of length n_vars (index i → σ_i)."; nl;
    "   • Each score measures spread of σ values across the full pool."; nl;
    "   • Low score = values clustered → encourage exploration."; nl;
    "   • High score = values spread → encourage refinement/stabilization."; nl;
    "   • Use these scores to decide which σ to perturb and by how much."; nl;
    "3) Parameter–parameter correlation (matrix) of the entire history pool."; nl;
    "   • Positive correlation: σ_i and σ_j move together."; nl;
    "   • Negative correlation: σ_i and σ_j trade off."; nl;
    "   • Use to design consistent edits across correlated parameters."; nl;
    "4) Parameter–objective correlation of the entire history pool."; nl;
    "   • How each σ dimension influences each objective."; nl;
    "5) PCA loadings + explained variance."; nl;
    "   • Use early PCs (high variance) to guide exploration directions."; nl;
    "6) Bounds reminder: all σ must remain inside "; bounds_str; "."; nl;
    "7) Edit budget: at most "; budget; " parameters may be shifted in each new set."; nl; nl;
    "**Guidelines:**"; nl;
    "- Inject diversity by perturbing clustered parameters"; nl;
    "- Spread out solutions across unexplored parameter space."; nl;
    "- Prioritize exploration over exploitation."; nl; nl;
    "Output format (STRICT):"; nl;
    "- Return a valid Python list of "; pretty pool_size; " dicts."; nl;
    "- Each dict must have 'values' (a list of "; pretty n_vars; " floats) and 'rationale' (short text)."; nl;
    "- The FIRST LINE of your reply must be ONLY that Python list—no extra text."
  ].

Definition user_msg_text {rt : Runtime} (n_vars n_objs : nat) (budget : string)
    (parent_pool parent_objectives param_diversity : pyobj)
    (param_param_corr param_obj_corr pca_loadings pca_explained_variance : pyobj)
  : string :=
  String.concat "" [
    nl; "==== Indexing & Semantics ===="; nl;
    "• Parameters: 0.."; pretty (Z.of_nat n_vars - 1); " (σ_k per dataset)."; nl;
    "• Objectives: 0.."; pretty (Z.of_nat n_objs - 1); " (RMS error, lower = better)."; nl; nl;
    "==== Current Parent Pool (parameters) ===="; nl;
    arr2str parent_pool (Some 3) (Some 20);
    nl; nl; "==== Current Parent Objectives ===="; nl;
    arr2str parent_objectives (Some 3) (Some 20);
    nl; nl; "==== Global Diversity per Parameter (from most recent candidates) ===="; nl;
    arr2str param_diversity None None;
    nl; nl; "==== Param–Param Correlation ===="; nl;
    arr2str param_param_corr None None;
    nl; nl; "==== Param–Objective Correlation ===="; nl;
    arr2str param_obj_corr None None;
    nl; nl; "==== PCA Loadings + Explained Variance ===="; nl;
    arr2str pca_loadings None None; nl;
    arr2str pca_explained_variance None None;
    nl; nl; "Instructions:"; nl;
    "- Expand diversity in globally clustered parameters."; nl;
    "- Stabilize extreme variation in globally high-diversity parameters."; nl;
    "- Keep all σ inside bounds."; nl;
    "- Adjust at most "; budget; " parameters per set."; nl;
    "- Output must cover all pool size (each dict corresponds to one candidate)."; nl
  ].

(** The text appended to the system message after an invalid response. *)
Definition warning_text (n_vars pool_size : nat) : string :=
  String.concat "" [
    nl; "WARNING: Your previous output was NOT a valid Python list of "; pretty pool_size; " dicts ";
    "with 'values' (length "; pretty n_vars; ") and 'rationale'. ";
    "The first line must be ONLY that Python list. Try again."
  ].

(** ** The node *)

(** One entry of the conversation passed to the language model:
    [{"role": ..., "content": ...}]. *)
Record message := mk_message { role : string; content : string }.

(** [summary[k]] *)
Definition subscript (o : pyobj) (k : string) : result pyobj :=
  match o with
  | ODict m => getitem m k
  | OArr _ => Raise IndexError
  | _ => Raise TypeError
  end.

(** [state.get("all_para", parent_pool)[-most_recent:]], the history window
    of the statistics. *)
Definition history_window (state : gmap string pyobj) (parent_pool : pyobj)
  : result ndarray :=
  match dict_get_default state "most_recent" (OInt 100) with
  | OInt most_recent =>
      match dict_get_default state "all_para" parent_pool with
      | OArr all_para => arr_slice_from all_para (- most_recent)
      | _ => Raise Unsupported
      end
  | OArr _ => Raise Unsupported
  | _ => Raise TypeError
  end.

(** What the lines before the retry loop compute and the loop and the
    [return]s use. *)
Record prepared := mk_prepared {
  p_parent_pool : pyobj;
  p_n_vars : nat;
  p_pool_size : nat;
  p_param_diversity : ndarray;
  p_system_message : string;
  p_user_msg : string
}.

Definition prepare {rt : Runtime} (state : gmap string pyobj) : result prepared :=
  parent_pool ← getitem state "parent_pool";
  parent_objectives ← getitem state "parent_objectives";
  let most_recent := dict_get_default state "most_recent" (OInt 100) in
  all_para ← history_window state parent_pool;
  n_vars ← shape_at parent_pool 1;
  n_objs ← shape_at parent_objectives 1;
  let bounds := dict_get_default state "bounds" ONone in
  let budget := dict_get_default state "budget" (OInt 2) in
  bounds_str ← bounds_str bounds;
  pool_size ← shape_at parent_pool 0;
  param_diversity ← np_std_axis0 all_para;
  summary ← getitem state "summary";
  param_param_corr ← subscript summary "param_param_corr";
  param_obj_corr ← subscript summary "param_obj_corr";
  pca_loadings ← subscript summary "pca_loadings";
  pca_explained_variance ← subscript summary "pca_explained_variance";
  most_recent_s ← py_format most_recent;
  budget_s ← py_format budget;
  Ok {| p_parent_pool := parent_pool;
        p_n_vars := n_vars;
        p_pool_size := pool_size;
        p_param_diversity := param_diversity;
        p_system_message :=
          system_message_text n_vars n_objs most_recent_s bounds_str budget_s
                              pool_size;
        p_user_msg :=
          user_msg_text n_vars n_objs budget_s parent_pool parent_objectives
                        (OArr param_diversity) param_param_corr param_obj_corr
                        pca_loadings pca_explained_variance |}.

(** The notice printed on the fallback path. *)
Definition fallback_notice : string :=
  "⚠️ LLM Diversity agent failed, returning unchanged pool.".

Section Agent.
Context {rt : Runtime}.
(** The language model: a callable with a state of its own, which takes
    the conversation and answers with text. *)
Context {LM : Type}.
Variable llm : LM -> list message -> string * LM.
Variable max_retries : Z.

(** The variables of the retry loop, the state of the language model, and
    the invocations made so far, each with its answer. *)
Record loop_state := mk_loop_state {
  tries : Z;
  sets : option (list pyval);
  report_raw : string;
  system_message : string;
  oracle : LM;
  calls : list (list message * string)
}.

Definition conversation (system_message user_msg : string) : list message :=
  [ {| role := "system"; content := system_message |};
    {| role := "user"; content := user_msg |} ].

(** [sets is None and tries < max_retries] *)
Definition loop_cond (s : loop_state) : bool :=
  match sets s with
  | None => tries s <? max_retries
  | Some _ => false
  end.

(** One turn of the [while] loop. *)
Definition loop_body (p : prepared) (s : loop_state) : loop_state :=
  let msgs := conversation (system_message s) (p_user_msg p) in
  let '(result, o) := llm (oracle s) msgs in
  let sets' := validate (p_n_vars p) (p_pool_size p) result in
  {| tries := tries s + 1;
     sets := sets';
     report_raw := result;
     system_message :=
       match sets' with
       | None => system_message s
                 +:+ warning_text (p_n_vars p) (p_pool_size p)
       | Some _ => system_message s
       end;
     oracle := o;
     calls := calls s ++ [(msgs, result)] |}.

Fixpoint while_loop (fuel : nat) (p : prepared) (s : loop_state)
  : loop_state :=
  match fuel with
  | O => s
  | S fuel' =>
      if loop_cond s then while_loop fuel' p (loop_body p s) else s
  end.

Definition loop_init (p : prepared) (o : LM) : loop_state :=
  {| tries := 0; sets := None; report_raw := "";
     system_message := p_system_message p; oracle := o; calls := [] |}.

(** The loop of the node: [max_retries] turns are enough fuel
    ([retry_loop_exits]). *)
Definition retry_loop (p : prepared) (o : LM) : loop_state :=
  while_loop (Z.to_nat max_retries) p (loop_init p o).

(** The lines after the loop for the accepted [sets]:
    [arrs = [np.array(item['values'], dtype=float) for item in sets]], then
    [rationales = [str(item['rationale']) for item in sets]], then
    [np.vstack(arrs)] in the [return]. *)
Definition assemble_pool (sets : list pyval) : result ndarray :=
  arrs ← map_result (fun item => v ← item_values item; np_array_float v) sets;
  rationales ← map_result (fun item => r ← item_rationale item; py_str r) sets;
  np_vstack arrs.

(** One call of the node: what it returns or that it raises, the language
    model afterwards, the invocations it made in order, and what it
    printed. *)
Record run := mk_run {
  outcome : result (gmap string pyobj);
  oracle_after : LM;
  invocations : list (list message * string);
  printed : list string
}.

Definition diversity_agent_node (state : gmap string pyobj) (o : LM) : run :=
  match prepare state with
  | Raise e =>
      {| outcome := Raise e; oracle_after := o; invocations := [];
         printed := [] |}
  | Ok p =>
      let s := retry_loop p o in
      match sets s with
      | None =>
          {| outcome :=
               Ok (<["diversity_report_raw" := OStr (report_raw s)]>
                     (<["rationales" := OList []]>
                        (<["diverse_pool" := p_parent_pool p]> state)));
             oracle_after := oracle s;
             invocations := calls s;
             printed := [fallback_notice] |}
      | Some sets =>
          {| outcome :=
               (diverse_pool ← assemble_pool sets;
                Ok (<["diverse_pool" := OArr diverse_pool]> state));
             oracle_after := oracle s;
             invocations := calls s;
             printed := [] |}
      end
  end.

End Agent.

(** [create_llm_diversity_agent(llm, max_retries=10)]: the node for a
    language model; an omitted [max_retries] is 10. *)
Definition create_llm_diversity_agent {rt : Runtime} {LM : Type}
    (llm : LM -> list message -> string * LM) (max_retries : option Z)
  : gmap string pyobj -> LM -> run :=
  diversity_agent_node llm (default 10 max_retries).

(** ** Input states of the documented shapes *)

Definition is_matrix (o : option pyobj) : bool :=
  match o with
  | Some (OArr a) => Nat.eqb (ndim a) 2
  | _ => false
  end.

Definition optional_int (o : option pyobj) : bool :=
  match o with
  | None | Some (OInt _) => true
  | _ => false
  end.

Definition optional_history (o : option pyobj) : bool :=
  match o with
  | None => true
  | Some (OArr a) => negb (Nat.eqb (ndim a) 0)
  | _ => false
  end.

(** A scalar bound or a non-empty array of per-parameter bounds. *)
Definition valid_bound (o : pyobj) : bool :=
  match o with
  | OFloat _ => true
  | OInt z => is_ok (float_of_int z)
  | OArr a => negb (Nat.eqb (length (data a)) 0)
  | _ => false
  end.

Definition optional_bounds (o : option pyobj) : bool :=
  match o with
  | None | Some ONone => true
  | Some (OTuple [lower; upper]) | Some (OList [lower; upper]) =>
      valid_bound lower && valid_bound upper
  | _ => false
  end.

Definition summary_keys : list string :=
  ["param_param_corr"; "param_obj_corr"; "pca_loadings";
   "pca_explained_variance"].

Definition is_summary (o : option pyobj) : bool :=
  match o with
  | Some (ODict m) => forallb (fun k => bool_decide (is_Some (m !! k))) summary_keys
  | _ => false
  end.

(** The required keys are there, and every key the node reads holds an
    object of the documented kind. *)
Definition valid_state (state : gmap string pyobj) : bool :=
  is_matrix (state !! "parent_pool")
  && is_matrix (state !! "parent_objectives")
  && optional_int (state !! "most_recent")
  && optional_history (state !! "all_para")
  && optional_bounds (state !! "bounds")
  && optional_int (state !! "budget")
  && is_summary (state !! "summary").

(** The keys of the state that the node reads. *)
Definition input_keys : list string :=
  ["parent_pool"; "parent_objectives"; "most_recent"; "all_para"; "bounds";
   "budget"; "summary"].

(** ** Notions of the specification *)

(** The system message of attempt [k], counting from 0: the first one with
    [k] warnings appended. *)
Fixpoint escalated (first warning : string) (k : nat) : string :=
  match k with
  | O => first
  | S k' => escalated first warning k' +:+ warning
  end.

(** The rows of a matrix and its columns. *)
Definition rows (a : ndarray) : list (list float) :=
  chunks (hd 0%nat (shape a)) (product (tail (shape a))) (data a).

Definition column (rs : list (list float)) (j : nat) : list float :=
  map (fun r => nth j r PrimFloat.zero) rs.

Definition columns (a : ndarray) : list (list float) :=
  map (column (rows a)) (seq 0 (product (tail (shape a)))).

(** Sum of a sequence of floats, from left to right. *)
Definition fsum (l : list float) : float :=
  match l with
  | [] => PrimFloat.zero
  | x :: l' => fold_left PrimFloat.add l' x
  end.

Definition fmean (l : list float) : float :=
  (fsum l / float_of_count (length l))%float.

Definition squared_deviations (l : list float) : list float :=
  map (fun x => ((x - fmean l) * (x - fmean l))%float) l.

(** The sum of a column of a window of [n] columns, the additions made in
    the order in which NumPy makes them: from zero, entry after entry, and
    pairwise when the window has one column only. *)
Definition column_sum (n : nat) (l : list float) : float :=
  if Nat.eqb n 1 then (PrimFloat.zero + np_pairwise_sum l)%float
  else fold_left PrimFloat.add l PrimFloat.zero.

(** Population standard deviation, the sums taken by [sum]: the squared
    deviations from the mean are averaged over all [K] entries. *)
Definition population_std (sum : list float -> float) (l : list float)
  : float :=
  let count := float_of_count (length l) in
  let mean := (sum l / count)%float in
  PrimFloat.sqrt
    (sum (map (fun x => ((x - mean) * (x - mean))%float) l) / count).

(** Sample standard deviation, in the words of the specification: the
    squared deviations from the mean are divided by [K - 1]. *)
Definition sample_std (l : list float) : float :=
  PrimFloat.sqrt (fsum (squared_deviations l) / float_of_count (length l - 1)).


(** The array of one number and the array of one row. *)
Definition scalar_array (x : float) : ndarray := {| shape := []; data := [x] |}.
Definition row_array (n : nat) (row : list float) : ndarray :=
  {| shape := [n]; data := row |}.

(** Lists and tuples are the dimensions of [np.array]; anything else is an
    entry. *)
Definition is_sequence (v : pyval) : bool :=
  match v with
  | PList _ | PTuple _ => true
  | _ => false
  end.

(** An entry that [np.array(..., dtype=float)] turns into one float. *)
Definition numeric_coercible {rt : Runtime} (v : pyval) : bool :=
  negb (is_sequence v) && is_ok (scalar_to_float v).

(** The ['values'] field of an item when it is a list or a tuple. *)
Definition values_of (item : pyval) : option (list pyval) :=
  match item with
  | PDict kvs =>
      match lit_getitem kvs "values" with
      | Some (PList l) | Some (PTuple l) => Some l
      | _ => None
      end
  | _ => None
  end.

Definition has_rationale (item : pyval) : bool :=
  match item with
  | PDict kvs => lit_contains kvs "rationale"
  | _ => false
  end.

(** A proposed candidate of the specification: a dict with a ['rationale']
    and with ['values'], a sequence of [n_vars] numbers. *)
Definition proposed_candidate {rt : Runtime} (n_vars : nat) (item : pyval) : bool :=
  has_rationale item
  && match values_of item with
     | Some l => Nat.eqb (length l) n_vars && forallb numeric_coercible l
     | None => false
     end.

(** The validator of the specification (section 4.4): the stripped text
    parses to a list of [pool_size] proposed candidates. *)
Definition spec_valid {rt : Runtime} (n_vars pool_size : nat) (raw : string) : bool :=
  match literal_eval (str_strip raw) with
  | Some (PList items) =>
      Nat.eqb (length items) pool_size
      && forallb (proposed_candidate n_vars) items
  | _ => false
  end.



(** The ['rationale'] of an item. *)
Definition rationale_of (item : pyval) : option pyval :=
  match item with
  | PDict kvs => lit_getitem kvs "rationale"
  | _ => None
  end.

(** The item has a ['rationale'] that [str] can write: a text, or any other
    value that holds no int of more than 4300 digits. *)
Definition rationale_prints (item : pyval) : bool :=
  match rationale_of item with
  | Some r => negb (repr_raises r)
  | None => false
  end.



(** ** A runtime for the examples

    The examples below run the node on texts.  They use a reader for a
    fragment of the Python literals: lists, dicts with string keys, strings
    without escapes, decimal numbers, ints in base 16, [True], [False] and
    [None].  On a text
    of the fragment the reader gives the value of [ast.literal_eval]; on any
    other text it gives [None]. *)
Module PyLiteral.

Definition is_ws (c : ascii) : bool :=
  match Ascii.nat_of_ascii c with
  | 32%nat | 9%nat | 10%nat | 13%nat => true
  | _ => false
  end.

Fixpoint skip_ws (s : string) : string :=
  match s with
  | String c s' => if is_ws c then skip_ws s' else s
  | EmptyString => s
  end.

Definition digit_of (c : ascii) : option Z :=
  let n := Z.of_nat (Ascii.nat_of_ascii c) in
  if (48 <=? n) && (n <=? 57) then Some (n - 48) else None.

(** The digits at the head of [s]: their value after [acc], how many there
    are, and the rest of the text. *)
Fixpoint read_digits (s : string) (acc : Z) (count : nat) : Z * nat * string :=
  match s with
  | String c s' =>
      match digit_of c with
      | Some d => read_digits s' (10 * acc + d) (S count)
      | None => (acc, count, s)
      end
  | EmptyString => (acc, count, s)
  end.

Definition starts_with_zero (s : string) : bool :=
  match s with
  | String c _ => Ascii.eqb c "0"
  | EmptyString => false
  end.

(** [m / 10^k], correctly rounded when both are exact floats. *)
Definition decimal_to_float (m : Z) (k : nat) : option float :=
  if (m <? 2 ^ 53) && (Z.of_nat k <=? 22)
  then Some (float_of_Z m / float_of_Z (10 ^ Z.of_nat k))%float
  else None.

(** An unsigned decimal number at the head of [s]. *)
Definition read_decimal (s : string) : option (pyval * string) :=
  let '(m, n, rest) := read_digits s 0 0 in
  match n with
  | O => None
  | _ =>
      match rest with
      | String "." rest' =>
          let '(m', k, rest'') := read_digits rest' m 0 in
          match k with
          | O => None
          | _ => f ← decimal_to_float m' k; Some (PFloat f, rest'')
          end
      | _ =>
          if starts_with_zero s && negb (Nat.eqb n 1) && negb (m =? 0)
          then None
          else Some (PInt m, rest)
      end
  end.

Definition hex_digit_of (c : ascii) : option Z :=
  let n := Z.of_nat (Ascii.nat_of_ascii c) in
  if (48 <=? n) && (n <=? 57) then Some (n - 48)
  else if (97 <=? n) && (n <=? 102) then Some (n - 87)
  else if (65 <=? n) && (n <=? 70) then Some (n - 55)
  else None.

Fixpoint read_hex_digits (s : string) (acc : Z) (count : nat)
  : Z * nat * string :=
  match s with
  | String c s' =>
      match hex_digit_of c with
      | Some d => read_hex_digits s' (16 * acc + d) (S count)
      | None => (acc, count, s)
      end
  | EmptyString => (acc, count, s)
  end.

(** An unsigned number of a literal at the head of [s]: an int in base 16
    after [0x], or a decimal number.  A decimal int of more than 4300 digits
    is refused, as the parser refuses it; an int in base 16 has no such
    limit. *)
Definition read_number (s : string) : option (pyval * string) :=
  match s with
  | String "0" (String "x" s') | String "0" (String "X" s') =>
      let '(m, n, rest) := read_hex_digits s' 0 0 in
      match n with
      | O => None
      | _ => Some (PInt m, rest)
      end
  | _ =>
      '(v, rest) ← read_decimal s;
      match v with
      | PInt m => if int_str_raises m then None else Some (v, rest)
      | _ => Some (v, rest)
      end
  end.

Definition negate (v : pyval) : option pyval :=
  match v with
  | PInt z => Some (PInt (- z))
  | PFloat f => Some (PFloat (- f)%float)
  | _ => None
  end.

(** The body of a string up to the quote [q]. *)
Fixpoint read_string (q : ascii) (s : string) : option (string * string) :=
  match s with
  | EmptyString => None
  | String c s' =>
      if Ascii.eqb c q then Some (EmptyString, s')
      else if Ascii.eqb c "\" || Ascii.eqb c "010" || Ascii.eqb c "013" then None
      else '(body, rest) ← read_string q s'; Some (String c body, rest)
  end.

Fixpoint strip_prefix (pre s : string) : option string :=
  match pre, s with
  | EmptyString, _ => Some s
  | String a pre', String b s' =>
      if Ascii.eqb a b then strip_prefix pre' s' else None
  | _, EmptyString => None
  end.

(** A later item with the same key replaces the value of the earlier
    one. *)
Fixpoint dict_set (kvs : list (pyval * pyval)) (k : string) (v : pyval)
  : list (pyval * pyval) :=
  match kvs with
  | [] => [(PStr k, v)]
  | (PStr k', v') :: kvs' =>
      if String.eqb k' k then (PStr k', v) :: kvs'
      else (PStr k', v') :: dict_set kvs' k v
  | kv :: kvs' => kv :: dict_set kvs' k v
  end.

Fixpoint read_value (fuel : nat) (s : string) : option (pyval * string) :=
  match fuel with
  | O => None
  | S fuel' =>
      match skip_ws s with
      | String "[" s1 =>
          '(l, rest) ← read_elems fuel' s1; Some (PList l, rest)
      | String "{" s1 =>
          '(kvs, rest) ← read_pairs fuel' [] s1; Some (PDict kvs, rest)
      | String "'" s1 =>
          '(body, rest) ← read_string "'" s1; Some (PStr body, rest)
      | String "034" s1 =>
          '(body, rest) ← read_string "034" s1; Some (PStr body, rest)
      | String "-" s1 =>
          '(v, rest) ← read_number s1; v' ← negate v; Some (v', rest)
      | s0 =>
          match strip_prefix "True" s0, strip_prefix "False" s0,
                strip_prefix "None" s0 with
          | Some rest, _, _ => Some (PBool true, rest)
          | _, Some rest, _ => Some (PBool false, rest)
          | _, _, Some rest => Some (PNone, rest)
          | _, _, _ => read_number s0
          end
      end
  end
with read_elems (fuel : nat) (s : string) : option (list pyval * string) :=
  match fuel with
  | O => None
  | S fuel' =>
      match skip_ws s with
      | String "]" rest => Some ([], rest)
      | s0 =>
          '(v, s1) ← read_value fuel' s0;
          match skip_ws s1 with
          | String "," s2 =>
              '(l, rest) ← read_elems fuel' s2; Some (v :: l, rest)
          | String "]" rest => Some ([v], rest)
          | _ => None
          end
      end
  end
with read_pairs (fuel : nat) (acc : list (pyval * pyval)) (s : string)
  : option (list (pyval * pyval) * string) :=
  match fuel with
  | O => None
  | S fuel' =>
      match skip_ws s with
      | String "}" rest => Some (acc, rest)
      | s0 =>
          '(k, s1) ← read_value fuel' s0;
          match k, skip_ws s1 with
          | PStr key, String ":" s2 =>
              '(v, s3) ← read_value fuel' s2;
              match skip_ws s3 with
              | String "," s4 => read_pairs fuel' (dict_set acc key v) s4
              | String "}" rest => Some (dict_set acc key v, rest)
              | _ => None
              end
          | _, _ => None
          end
      end
  end.

Definition literal_eval (s : string) : option pyval :=
  match read_value (2 * String.length s + 2) s with
  | Some (v, EmptyString) => Some v
  | _ => None
  end.

(** [float(s)] for a decimal number with an optional sign; digits beyond
    the range of the floats give an infinity. *)
Definition float_of_str (s : string) : option float :=
  let signed :=
    match s with
    | String "-" s1 => '(v, rest) ← read_decimal s1; v' ← negate v; Some (v', rest)
    | _ => read_decimal s
    end in
  match signed with
  | Some (PFloat f, EmptyString) => Some f
  | Some (PInt z, EmptyString) => Some (float_of_Z z)
  | _ => None
  end.

(** [s.strip()] for the ASCII white space. *)
Definition lstrip : string -> string := skip_ws.
Definition str_strip (s : string) : string :=
  String.rev (lstrip (String.rev (lstrip s))).

End PyLiteral.

(** The binary fraction [m * 2^e] with the factors two of [m] moved into
    the exponent, as long as the exponent is negative. *)
Fixpoint reduce_fraction (fuel : nat) (m e : Z) : Z * Z :=
  match fuel with
  | O => (m, e)
  | S fuel' =>
      if (e <? 0) && Z.even m then reduce_fraction fuel' (m / 2) (e + 1)
      else (m, e)
  end.

Fixpoint zeros (n : nat) : string :=
  match n with
  | O => EmptyString
  | S n' => "0" +:+ zeros n'
  end.

(** The exact decimal expansion of a float.  For a float with few binary
    digits and below [10^16] this is the text that [str] gives. *)
Definition example_float_repr (f : float) : string :=
  match Prim2SF f with
  | S754_nan => "nan"
  | S754_infinity s => if s then "-inf" else "inf"
  | S754_zero s => if s then "-0.0" else "0.0"
  | S754_finite s m e =>
      let sign := if s then "-" else "" in
      let '(m', e') := reduce_fraction 64 (Z.pos m) e in
      if 0 <=? e' then sign +:+ pretty (m' * 2 ^ e') +:+ ".0"
      else
        let k := - e' in
        let n := m' * 5 ^ k in
        let frac := pretty (n mod 10 ^ k) in
        sign +:+ pretty (n / 10 ^ k) +:+ "."
             +:+ zeros (Z.to_nat k - String.length frac) +:+ frac
  end.

(** A stand-in for [arr2str], whose source is not part of this development:
    the elements of an array on one line. *)
Definition example_arr2str (o : pyobj) (decimals max_rows : option Z) : string :=
  match o with
  | OArr a => "[" +:+ String.concat " " (map example_float_repr (data a)) +:+ "]"
  | _ => ""
  end.

Definition example_runtime : Runtime :=
  {| str_strip := PyLiteral.str_strip;
     literal_eval := PyLiteral.literal_eval;
     float_of_str := PyLiteral.float_of_str;
     float_repr := example_float_repr;
     arr2str := example_arr2str |}.

(** A language model that reads its answers from a script, one per call,
    and answers with the empty text when the script is over. *)
Definition scripted_llm (script : list string) (msgs : list message)
  : string * list string :=
  match script with
  | [] => ("", [])
  | r :: script' => (r, script')
  end.

(** A language model that always gives the same answer. *)
Definition constant_llm (answer : string) (u : unit) (msgs : list message)
  : string * unit :=
  (answer, u).

Definition matrix (m n : nat) (d : list float) : pyobj :=
  OArr {| shape := [m; n]; data := d |}.

Definition example_summary : pyobj :=
  ODict (list_to_map
           [("param_param_corr", matrix 2 2 [1; 0; 0; 1]%float);
            ("param_obj_corr", matrix 2 1 [1; -1]%float);
            ("pca_loadings", matrix 2 2 [1; 0; 0; 1]%float);
            ("pca_explained_variance",
             OArr {| shape := [2%nat]; data := [0.75; 0.25]%float |})]).

(** Two candidates of two parameters, one objective each. *)
Definition example_state : gmap string pyobj :=
  list_to_map
    [("parent_pool", matrix 2 2 [0; 1; 1; 0]%float);
     ("parent_objectives", matrix 2 1 [0.5; 0.25]%float);
     ("summary", example_summary)].

(** One candidate of one parameter. *)
Definition small_state : gmap string pyobj :=
  list_to_map
    [("parent_pool", matrix 1 1 [0.5]%float);
     ("parent_objectives", matrix 1 1 [0.25]%float);
     ("summary", example_summary)].

Definition good_answer : string :=
  "[{'values': [0.25, 1], 'rationale': 'a'}, {'values': [2, 3.5], 'rationale': 'b'}]".

Definition bad_answer : string := "I cannot help with that.".

(** One dict in the right shape whose only value is not a number. *)
Definition non_numeric_answer : string :=
  "[{'values': ['abc'], 'rationale': 'r'}]".

(** The state of a later generation: it still holds the pool that an
    earlier call of the node wrote. *)
Definition later_state : gmap string pyobj :=
  <["diverse_pool" := matrix 1 2 [0.25; 0.75]%float]> example_state.

(** A state with a history of three candidates and a window of size 0. *)
Definition zero_window_state : gmap string pyobj :=
  <["most_recent" := OInt 0]>
    (<["all_para" := matrix 3 2 [0; 1; 1; 0; 0.5; 0.5]%float]> example_state).

(** A state with a history of three candidates and a window of size 2. *)
Definition windowed_state : gmap string pyobj :=
  <["most_recent" := OInt 2]>
    (<["all_para" := matrix 3 1 [7; 0; 2]%float]> small_state).


(** What holds of the variables of the retry loop before and after every
    turn: the attempts are counted, attempt [k] was asked with [k] warnings
    after the first system message and with the same user message, every
    answer but the last was invalid, and [sets] and [report_raw] come from
    the last answer. *)
Definition loop_invariant {rt : Runtime} {LM : Type} (max_retries : Z)
    (p : prepared) (s : loop_state (LM := LM)) : Prop :=
  let warning := warning_text (p_n_vars p) (p_pool_size p) in
  0 <= tries s <= Z.max 0 max_retries
  /\ length (calls s) = Z.to_nat (tries s)
  /\ (forall k m r, calls s !! k = Some (m, r) ->
        m = conversation (escalated (p_system_message p) warning k)
                         (p_user_msg p))
  /\ (forall k m r, calls s !! k = Some (m, r) ->
        (S k < length (calls s))%nat ->
        validate (p_n_vars p) (p_pool_size p) r = None)
  /\ report_raw s = default "" (last (map snd (calls s)))
  /\ sets s = match last (calls s) with
              | Some (_, r) => validate (p_n_vars p) (p_pool_size p) r
              | None => None
              end
  /\ (sets s = None ->
      system_message s
      = escalated (p_system_message p) warning (length (calls s))).

(** The keys that the node reads with [state[...]]. *)
Definition required_keys : list string :=
  ["parent_pool"; "parent_objectives"; "summary"].

(** The state that the fallback path returns. *)
Definition fallback_state (state : gmap string pyobj) (parent_pool : pyobj)
    (report_raw : string) : gmap string pyobj :=
  <["diversity_report_raw" := OStr report_raw]>
    (<["rationales" := OList []]>
       (<["diverse_pool" := parent_pool]> state)).

(** A state with per-parameter bounds. *)
Definition bounded_state : gmap string pyobj :=
  <["bounds" := OTuple [OArr {| shape := [2%nat]; data := [0.5; 0.25]%float |};
                        OArr {| shape := [2%nat]; data := [2; 4]%float |}]]>
    example_state.

(** A state whose history has no row. *)
Definition empty_history_state : gmap string pyobj :=
  <["all_para" := matrix 0 2 []]> example_state.

(** A state with a history of three candidates and a negative window
    size. *)
Definition negative_window_state : gmap string pyobj :=
  <["most_recent" := OInt (-1)]>
    (<["all_para" := matrix 3 1 [7; 0; 2]%float]> small_state).

(** An answer of the right shape whose ['values'] are lists of lists. *)
Definition nested_answer : string :=
  "[{'values': [[1, 2, 3], [4, 5, 6]], 'rationale': 'a'}, {'values': [[7, 8, 9], [10, 11, 12]], 'rationale': 'b'}]".

(** A list or tuple of [m] numbers. *)
Definition flat_row {rt : Runtime} (m : nat) (v : pyval) : bool :=
  match v with
  | PList es | PTuple es =>
      Nat.eqb (length es) m && forallb numeric_coercible es
  | _ => false
  end.

(** An item whose ['values'] are [n_vars] lists of [m] numbers each, instead
    of [n_vars] numbers. *)
Definition nested_candidate {rt : Runtime} (n_vars m : nat) (item : pyval)
  : bool :=
  has_rationale item
  && match values_of item with
     | Some l => Nat.eqb (length l) n_vars && forallb (flat_row m) l
     | None => false
     end.

(** A state with a history of eight candidates of one parameter, all of
    them in the window. *)
Definition long_window_state : gmap string pyobj :=
  <["most_recent" := OInt 8]>
    (<["all_para" := matrix 8 1 [1e16; 1; 1; 1; 1; 1; 1; 1]%float]> small_state).

(** An answer of the right shape whose ['rationale'] is the int [16^3572],
    of 4302 decimal digits, written in base 16. *)
Definition huge_int_answer : string :=
  "[{'values': [0.5], 'rationale': 0x1" +:+ zeros 3572 +:+ "}]".

(** The pool and the summary of the example state. *)
Definition example_pool : ndarray :=
  {| shape := [2; 2]%nat; data := [0; 1; 1; 0]%float |}.

Definition example_summary_map : gmap string pyobj :=
  list_to_map
    [("param_param_corr", matrix 2 2 [1; 0; 0; 1]%float);
     ("param_obj_corr", matrix 2 1 [1; -1]%float);
     ("pca_loadings", matrix 2 2 [1; 0; 0; 1]%float);
     ("pca_explained_variance",
      OArr {| shape := [2%nat]; data := [0.75; 0.25]%float |})].

(** A state whose parent pool has no candidate. *)
Definition empty_pool_state : gmap string pyobj :=
  list_to_map
    [("parent_pool", matrix 0 2 []);
     ("parent_objectives", matrix 0 1 []);
     ("summary", example_summary)].

(** * Properties *)

(** ** The lines before the retry loop *)

Lemma bind_ok {A B} (r : result A) (f : A -> result B) (b : B) :
  r ≫= f = Ok b -> exists a, r = Ok a /\ f a = Ok b.
Proof. destruct r as [a|e]; [eauto | discriminate]. Qed.

Lemma is_matrix_inv (o : option pyobj) :
  is_matrix o = true ->
  exists a m n, o = Some (OArr a) /\ shape a = [m; n].
Proof.
  destruct o as [[| | | | | | |a]|]; try discriminate.
  unfold is_matrix, ndim. destruct a as [[|m [|n [|? ?]]] d]; try discriminate.
  intros _. exists {| shape := [m; n]; data := d |}, m, n. auto.
Qed.

Lemma arr_slice_from_ok (a : ndarray) (i : Z) :
  shape a <> [] ->
  exists w, arr_slice_from a i = Ok w /\ shape w <> [].
Proof.
  unfold arr_slice_from. destruct (shape a) as [|k rest]; [done|].
  intros _. eexists. split; [reflexivity | done].
Qed.

Lemma history_window_ok (st : gmap string pyobj) (pp : ndarray) :
  optional_int (st !! "most_recent") = true ->
  optional_history (st !! "all_para") = true ->
  shape pp <> [] ->
  exists w, history_window st (OArr pp) = Ok w /\ shape w <> [].
Proof.
  unfold history_window, dict_get_default, optional_int, optional_history.
  intros Hk Hh Hpp.
  assert (Hslice : forall i o,
             optional_history o = true ->
             exists w, match default (OArr pp) o with
                       | OArr all_para => arr_slice_from all_para i
                       | _ => Raise Unsupported
                       end = Ok w /\ shape w <> []).
  { intros i [[| | | | | | |h]|]; try discriminate; simpl; intros Hh';
      apply arr_slice_from_ok; [|assumption].
    unfold ndim in Hh'. destruct (shape h); [discriminate | done]. }
  destruct (st !! "most_recent") as [[z| | | | | | |]|]; try discriminate;
    simpl; apply Hslice; assumption.
Qed.

Lemma np_std_axis0_ok (w : ndarray) :
  shape w <> [] -> exists d, np_std_axis0 w = Ok d.
Proof.
  unfold np_std_axis0. destruct (shape w); [done|]. eauto.
Qed.

Section PrepareFacts.
Context {rt : Runtime}.

Lemma float_np_reduce_ok (op : float -> float -> float) (o : pyobj) :
  valid_bound o = true -> exists f, float_np_reduce op o = Ok f.
Proof.
  destruct o as [z|f| | | | | |a]; try discriminate; simpl.
  - destruct (float_of_int z); [eauto | discriminate].
  - eauto.
  - destruct (data a); [discriminate | eauto].
Qed.

Lemma bounds_str_ok (st : gmap string pyobj) :
  optional_bounds (st !! "bounds") = true ->
  exists s, bounds_str (dict_get_default st "bounds" ONone) = Ok s.
Proof.
  unfold dict_get_default, optional_bounds.
  destruct (st !! "bounds") as [b|]; simpl; [|eauto].
  destruct b as [| | | |l|l| |]; try discriminate; eauto;
    (destruct l as [|lo [|hi [|? ?]]]; try discriminate;
     intros [Hlo Hhi]%andb_prop;
     destruct (float_np_reduce_ok np_minimum lo Hlo) as [x Hx];
     destruct (float_np_reduce_ok np_maximum hi Hhi) as [y Hy];
     unfold bounds_str; simpl; rewrite Hx; simpl; rewrite Hy; simpl; eauto).
Qed.

Lemma py_format_optional_int (st : gmap string pyobj) (k : string) (d : Z) :
  optional_int (st !! k) = true ->
  exists s, py_format (dict_get_default st k (OInt d)) = Ok s.
Proof.
  unfold dict_get_default, optional_int.
  destruct (st !! k) as [[z| | | | | | |]|]; try discriminate; simpl; eauto.
Qed.

Lemma summary_subscript_ok (m : gmap string pyobj) (k : string) :
  k ∈ summary_keys ->
  forallb (fun k => bool_decide (is_Some (m !! k))) summary_keys = true ->
  exists o, subscript (ODict m) k = Ok o.
Proof.
  intros Hk Hall. rewrite forallb_forall in Hall.
  apply list_elem_of_In, Hall, bool_decide_eq_true in Hk as [o Ho].
  exists o. simpl. unfold getitem. by rewrite Ho.
Qed.

(** A state of the documented shape goes through the lines before the
    loop, and the loop then works with the pool of the state. *)
Lemma valid_state_prepare (st : gmap string pyobj) :
  valid_state st = true ->
  exists p pp pool_size n_vars,
    prepare st = Ok p
    /\ st !! "parent_pool" = Some (OArr pp)
    /\ shape pp = [pool_size; n_vars]
    /\ p_parent_pool p = OArr pp
    /\ p_pool_size p = pool_size
    /\ p_n_vars p = n_vars.
Proof.
  unfold valid_state. intros Hv.
  repeat (apply andb_prop in Hv as [Hv ?]).
  destruct (is_matrix_inv _ Hv) as (pp & m & n & Hpp & Hshape).
  destruct (is_matrix_inv (st !! "parent_objectives")) as (po & m' & n' & Hpo & Hshape');
    [assumption|].
  destruct (history_window_ok st pp) as (w & Hw & Hwshape); try assumption.
  { rewrite Hshape. done. }
  destruct (np_std_axis0_ok w Hwshape) as [dv Hdv].
  destruct (bounds_str_ok st) as [bs Hbs]; [assumption|].
  destruct (py_format_optional_int st "most_recent" 100) as [mr Hmr]; [assumption|].
  destruct (py_format_optional_int st "budget" 2) as [bu Hbu]; [assumption|].
  unfold is_summary in *.
  destruct (st !! "summary") as [[| | | | | |sm|]|] eqn:Hsum; try discriminate.
  destruct (summary_subscript_ok sm "param_param_corr") as [s1 Hs1];
    [apply list_elem_of_In; simpl; auto | assumption |].
  destruct (summary_subscript_ok sm "param_obj_corr") as [s2 Hs2];
    [apply list_elem_of_In; simpl; auto | assumption |].
  destruct (summary_subscript_ok sm "pca_loadings") as [s3 Hs3];
    [apply list_elem_of_In; simpl; auto | assumption |].
  destruct (summary_subscript_ok sm "pca_explained_variance") as [s4 Hs4];
    [apply list_elem_of_In; simpl; auto | assumption |].
  eexists _, pp, m, n.
  unfold prepare, getitem. rewrite Hpp, Hpo, Hsum. simpl.
  rewrite Hw. simpl. rewrite Hshape, Hshape'. simpl.
  rewrite Hbs. simpl. rewrite Hdv. simpl.
  simpl in Hs1, Hs2, Hs3, Hs4. rewrite Hs1. simpl. rewrite Hs2. simpl.
  rewrite Hs3. simpl. rewrite Hs4. simpl.
  rewrite Hmr. simpl. rewrite Hbu. simpl.
  repeat split; reflexivity || assumption.
Qed.

(** What was prepared comes from the state. *)
Lemma prepare_inv (st : gmap string pyobj) (p : prepared) :
  prepare st = Ok p ->
  st !! "parent_pool" = Some (p_parent_pool p)
  /\ shape_at (p_parent_pool p) 0 = Ok (p_pool_size p)
  /\ shape_at (p_parent_pool p) 1 = Ok (p_n_vars p)
  /\ exists w, history_window st (p_parent_pool p) = Ok w
               /\ np_std_axis0 w = Ok (p_param_diversity p).
Proof.
  unfold prepare. intros Hp.
  apply bind_ok in Hp as (pp & Hpp & Hp).
  apply bind_ok in Hp as (po & Hpo & Hp). cbv zeta in Hp.
  apply bind_ok in Hp as (w & Hw & Hp).
  apply bind_ok in Hp as (n & Hn & Hp).
  apply bind_ok in Hp as (n' & Hn' & Hp). cbv zeta in Hp.
  apply bind_ok in Hp as (bs & Hbs & Hp).
  apply bind_ok in Hp as (m & Hm & Hp).
  apply bind_ok in Hp as (dv & Hdv & Hp).
  apply bind_ok in Hp as (sm & Hsm & Hp).
  apply bind_ok in Hp as (s1 & Hs1 & Hp).
  apply bind_ok in Hp as (s2 & Hs2 & Hp).
  apply bind_ok in Hp as (s3 & Hs3 & Hp).
  apply bind_ok in Hp as (s4 & Hs4 & Hp).
  apply bind_ok in Hp as (mr & Hmr & Hp).
  apply bind_ok in Hp as (bu & Hbu & Hp).
  injection Hp as <-. simpl.
  unfold getitem in Hpp. destruct (st !! "parent_pool"); [|discriminate].
  injection Hpp as ->. eauto 10.
Qed.

End PrepareFacts.

(** ** The retry loop *)

Section LoopFacts.
Context {rt : Runtime} {LM : Type}.
Variable llm : LM -> list message -> string * LM.
Variable max_retries : Z.
Variable p : prepared.

Lemma loop_body_unfold (s : loop_state) :
  let msgs := conversation (system_message s) (p_user_msg p) in
  let r := fst (llm (oracle s) msgs) in
  loop_body llm p s
  = {| tries := tries s + 1;
       sets := validate (p_n_vars p) (p_pool_size p) r;
       report_raw := r;
       system_message :=
         match validate (p_n_vars p) (p_pool_size p) r with
         | None => system_message s
                   +:+ warning_text (p_n_vars p) (p_pool_size p)
         | Some _ => system_message s
         end;
       oracle := snd (llm (oracle s) msgs);
       calls := calls s ++ [(msgs, r)] |}.
Proof. unfold loop_body. simpl. destruct (llm _ _). reflexivity. Qed.

(** A property kept by every turn holds when the loop is left. *)
Lemma while_loop_ind (P : loop_state -> Prop) :
  (forall s, P s -> loop_cond max_retries s = true -> P (loop_body llm p s)) ->
  forall fuel s, P s -> P (while_loop llm max_retries fuel p s).
Proof.
  intros Hstep. induction fuel as [|fuel IH]; intros s Hs; simpl; [assumption|].
  destruct (loop_cond max_retries s) eqn:Hc; [|assumption].
  apply IH, Hstep; assumption.
Qed.

(** The loop is left because its condition fails, not for lack of fuel. *)
Lemma while_loop_exits (fuel : nat) (s : loop_state) :
  (Z.to_nat (max_retries - tries s) <= fuel)%nat ->
  loop_cond max_retries (while_loop llm max_retries fuel p s) = false.
Proof.
  revert s. induction fuel as [|fuel IH]; intros s Hfuel; simpl.
  - unfold loop_cond. destruct (sets s); [reflexivity|].
    apply Z.ltb_ge. lia.
  - destruct (loop_cond max_retries s) eqn:Hc; [|assumption].
    apply IH. rewrite loop_body_unfold. simpl. lia.
Qed.

Lemma retry_loop_exits (o : LM) :
  loop_cond max_retries (retry_loop llm max_retries p o) = false.
Proof. apply while_loop_exits. simpl. lia. Qed.

Lemma loop_invariant_init (o : LM) :
  loop_invariant max_retries p (loop_init p o).
Proof.
  unfold loop_invariant, loop_init. simpl.
  repeat split; try done; lia.
Qed.

Lemma loop_invariant_step (s : loop_state) :
  loop_invariant max_retries p s ->
  loop_cond max_retries s = true ->
  loop_invariant max_retries p (loop_body llm p s).
Proof.
  intros (Htries & Hlen & Hmsgs & Hinvalid & Hraw & Hsets & Hsys) Hc.
  unfold loop_cond in Hc. destruct (sets s) eqn:Hs; [discriminate|].
  apply Z.ltb_lt in Hc. specialize (Hsys eq_refl).
  rewrite loop_body_unfold. unfold loop_invariant. simpl.
  set (r := fst (llm (oracle s) _)).
  split; [lia|]. split; [rewrite length_app; simpl; lia|].
  split; [|split; [|split; [|split]]].
  - intros k m r' Hk. destruct (decide (k < length (calls s))%nat) as [Hlt|Hge].
    + rewrite lookup_app_l in Hk by assumption. eauto.
    + rewrite lookup_app_r in Hk by lia.
      destruct (k - length (calls s))%nat as [|?] eqn:Hd; [|discriminate].
      simpl in Hk. injection Hk as <- <-.
      rewrite Hsys. f_equal. f_equal. lia.
  - intros k m r' Hk Hlt. rewrite length_app in Hlt. simpl in Hlt.
    rewrite lookup_app_l in Hk by lia.
    destruct (decide (S k < length (calls s))%nat) as [Hlt'|Hge]; [eauto|].
    assert (Hlast : last (calls s) = Some (m, r')).
    { rewrite last_lookup. rewrite <- Hk. f_equal. lia. }
    rewrite Hlast in Hsets. congruence.
  - rewrite map_app. simpl. rewrite last_snoc. reflexivity.
  - rewrite last_snoc. reflexivity.
  - intros Hnone. rewrite Hnone, Hsys, length_app. simpl.
    replace (length (calls s) + 1)%nat with (S (length (calls s))) by lia.
    reflexivity.
Qed.

Lemma retry_loop_invariant (o : LM) :
  loop_invariant max_retries p (retry_loop llm max_retries p o).
Proof.
  unfold retry_loop.
  apply while_loop_ind; [apply loop_invariant_step | apply loop_invariant_init].
Qed.

(** The invocations only grow. *)
Lemma while_loop_calls (fuel : nat) (s : loop_state) :
  (length (calls s) <= length (calls (while_loop llm max_retries fuel p s)))%nat.
Proof.
  apply (while_loop_ind (fun s' => (length (calls s) <= length (calls s'))%nat));
    [|lia].
  intros s' Hs' _. rewrite loop_body_unfold. simpl. rewrite length_app. lia.
Qed.

End LoopFacts.

(** ** The node as a whole *)

Section NodeFacts.
Context {rt : Runtime} {LM : Type}.
Variable llm : LM -> list message -> string * LM.
Variable max_retries : Z.

Lemma node_invocations (st : gmap string pyobj) (o : LM) (p : prepared) :
  prepare st = Ok p ->
  invocations (diversity_agent_node llm max_retries st o)
  = calls (retry_loop llm max_retries p o).
Proof.
  intros Hp. unfold diversity_agent_node. rewrite Hp.
  destruct (sets _); reflexivity.
Qed.

Lemma node_invocations_raise (st : gmap string pyobj) (o : LM) (e : exn) :
  prepare st = Raise e ->
  invocations (diversity_agent_node llm max_retries st o) = [].
Proof. intros Hp. unfold diversity_agent_node. rewrite Hp. reflexivity. Qed.

(** With at least one attempt allowed, the loop starts with a turn. *)
Lemma retry_loop_first_turn (p : prepared) (o : LM) :
  1 <= max_retries ->
  exists fuel,
    retry_loop llm max_retries p o
    = while_loop llm max_retries fuel p (loop_body llm p (loop_init p o)).
Proof.
  intros Hmr. unfold retry_loop.
  destruct (Z.to_nat max_retries) as [|fuel] eqn:Hfuel; [lia|].
  exists fuel. simpl.
  replace (loop_cond max_retries (loop_init p o)) with true; [reflexivity|].
  unfold loop_cond, loop_init. simpl. symmetry. apply Z.ltb_lt. lia.
Qed.

(** The first invocation carries the two prepared messages. *)
Lemma first_invocation (p : prepared) (o : LM) :
  1 <= max_retries ->
  fst <$> head (calls (retry_loop llm max_retries p o))
  = Some (conversation (p_system_message p) (p_user_msg p)).
Proof.
  intros Hmr.
  pose proof (retry_loop_invariant llm max_retries p o)
    as (_ & _ & Hmsgs & _).
  destruct (retry_loop_first_turn p o Hmr) as [fuel Hfuel].
  pose proof (while_loop_calls llm max_retries p fuel
                (loop_body llm p (loop_init p o))) as Hlen.
  rewrite <- Hfuel in Hlen. rewrite loop_body_unfold in Hlen. simpl in Hlen.
  destruct (calls (retry_loop llm max_retries p o)) as [|[m r] cs] eqn:Hcalls;
    [simpl in Hlen; lia|].
  simpl. f_equal. apply (Hmsgs 0%nat m r). reflexivity.
Qed.


(** When the first answer is valid the loop makes one turn and keeps it. *)
Lemma retry_loop_first_valid (p : prepared) (o : LM) (items : list pyval) :
  1 <= max_retries ->
  validate (p_n_vars p) (p_pool_size p)
    (fst (llm o (conversation (p_system_message p) (p_user_msg p))))
  = Some items ->
  sets (retry_loop llm max_retries p o) = Some items.
Proof.
  intros Hmr Hvalid.
  destruct (retry_loop_first_turn p o Hmr) as [fuel ->].
  assert (Hsets : sets (loop_body llm p (loop_init p o)) = Some items).
  { rewrite loop_body_unfold. simpl. exact Hvalid. }
  destruct fuel as [|fuel]; simpl; [assumption|].
  unfold loop_cond at 1. rewrite Hsets. assumption.
Qed.

(** After a valid first answer the node returns what the assembly of the
    pool gives, an exception included. *)
Lemma node_outcome_first_valid (st : gmap string pyobj) (o : LM)
    (p : prepared) (items : list pyval) :
  prepare st = Ok p ->
  1 <= max_retries ->
  validate (p_n_vars p) (p_pool_size p)
    (fst (llm o (conversation (p_system_message p) (p_user_msg p))))
  = Some items ->
  outcome (diversity_agent_node llm max_retries st o)
  = (diverse_pool ← assemble_pool items;
     Ok (<["diverse_pool" := OArr diverse_pool]> st)).
Proof.
  intros Hp Hmr Hvalid. unfold diversity_agent_node.
  rewrite Hp, (retry_loop_first_valid p o items Hmr Hvalid). reflexivity.
Qed.

End NodeFacts.





(** With [max_retries] omitted the fallback comes after ten invocations. *)
Example default_retries :
  length (invocations
            (create_llm_diversity_agent (rt := example_runtime)
               (constant_llm bad_answer) None example_state tt))
  = 10%nat.
Proof. vm_compute. reflexivity. Qed.






(** ** Assembling the pool *)

Section PoolFacts.
Context {rt : Runtime}.

Lemma np_array_float_list (l : list pyval) :
  np_array_float (PList l)
  = match map_result np_array_float l with
    | Raise e => Raise e
    | Ok subs => stack_subarrays subs
    end.
Proof. reflexivity. Qed.

Lemma np_array_float_tuple (l : list pyval) :
  np_array_float (PTuple l)
  = match map_result np_array_float l with
    | Raise e => Raise e
    | Ok subs => stack_subarrays subs
    end.
Proof. reflexivity. Qed.

Lemma np_array_float_scalar (v : pyval) (x : float) :
  is_sequence v = false ->
  scalar_to_float v = Ok x ->
  np_array_float v = Ok {| shape := []; data := [x] |}.
Proof.
  intros Hseq Hx.
  assert (Hnp : np_array_float v
                = match scalar_to_float v with
                  | Raise e => Raise e
                  | Ok y => Ok {| shape := []; data := [y] |}
                  end)
    by (destruct v; try discriminate; reflexivity).
  rewrite Hnp, Hx. reflexivity.
Qed.

Lemma map_result_scalars (l : list pyval) :
  forallb numeric_coercible l = true ->
  exists row,
    map_result scalar_to_float l = Ok row
    /\ map_result np_array_float l = Ok (map scalar_array row)
    /\ length row = length l.
Proof.
  induction l as [|v l IH]; intros Hall.
  - exists []. auto.
  - simpl in Hall. apply andb_prop in Hall as [Hv Hl].
    destruct (IH Hl) as (row & Hrow & Harr & Hlen).
    unfold numeric_coercible in Hv. apply andb_prop in Hv as [Hseq Hok].
    apply negb_true_iff in Hseq.
    destruct (scalar_to_float v) as [x|e] eqn:Hx; [|discriminate].
    exists (x :: row). simpl. rewrite Hx, Hrow.
    rewrite (np_array_float_scalar v x Hseq Hx), Harr.
    repeat split. simpl. lia.
Qed.

Lemma stack_scalar_arrays (row : list float) :
  stack_subarrays (map scalar_array row)
  = Ok {| shape := [length row]; data := row |}.
Proof.
  assert (Hdata : forall r, concat (map data (map scalar_array r)) = r).
  { induction r as [|x r IH]; simpl; [reflexivity | by rewrite IH]. }
  destruct row as [|x row]; [reflexivity|].
  unfold stack_subarrays. rewrite Hdata, length_map. cbn [map].
  match goal with
  | |- (if ?c then _ else _) = _ => assert (Hc : c = true)
  end.
  { apply forallb_forall. intros b Hb.
    change (scalar_array x :: map scalar_array row)
      with (map scalar_array (x :: row)) in Hb.
    apply in_map_iff in Hb as (y & <- & _). apply bool_decide_eq_true.
    reflexivity. }
  rewrite Hc. reflexivity.
Qed.

(** The array of a flat list or tuple of numbers. *)
Lemma np_array_float_row (v : pyval) (l : list pyval) :
  v = PList l \/ v = PTuple l ->
  forallb numeric_coercible l = true ->
  exists row,
    map_result scalar_to_float l = Ok row
    /\ length row = length l
    /\ np_array_float v = Ok {| shape := [length l]; data := row |}.
Proof.
  intros Hv Hall.
  destruct (map_result_scalars l Hall) as (row & Hrow & Harr & Hlen).
  exists row. repeat split; try assumption.
  destruct Hv as [-> | ->];
    [rewrite np_array_float_list | rewrite np_array_float_tuple];
    rewrite Harr, stack_scalar_arrays, Hlen; reflexivity.
Qed.



(** [str] of an int raises exactly from [10^4300] on, in absolute value. *)
Lemma int_str_raises_limit (z : Z) :
  int_str_raises z = (10 ^ int_max_str_digits <=? Z.abs z).
Proof.
  unfold int_str_raises.
  destruct (Z.ltb_spec (Z.log2 (Z.abs z)) 14284) as [Hlt|Hge]; [|reflexivity].
  symmetry. apply Z.leb_gt.
  destruct (Z.eq_dec (Z.abs z) 0) as [Hz|Hz].
  - rewrite Hz. apply Z.pow_pos_nonneg; [lia | discriminate].
  - assert (Hpos : 0 < Z.abs z) by lia.
    apply (Z.lt_le_trans _ (2 ^ 14284)).
    + apply Z.log2_lt_pow2; assumption.
    + apply Z.leb_le. vm_compute. reflexivity.
Qed.

(** [str] writes the rationale of an item whose rationale prints. *)
Lemma rationale_prints_str (item : pyval) :
  rationale_prints item = true ->
  (r ← item_rationale item; py_str r) = Ok tt.
Proof.
  unfold rationale_prints, rationale_of. destruct item; try discriminate.
  simpl. destruct (lit_getitem kvs "rationale") as [r|]; [|discriminate].
  simpl. unfold py_str. destruct (repr_raises r); [discriminate | reflexivity].
Qed.

Lemma rationales_print_str (items : list pyval) :
  forallb rationale_prints items = true ->
  exists texts,
    map_result (fun item => r ← item_rationale item; py_str r) items
    = Ok texts.
Proof.
  induction items as [|item items IH]; intros Hall.
  - exists []. reflexivity.
  - simpl in Hall. apply andb_prop in Hall as [Hitem Hitems].
    destruct (IH Hitems) as [texts Htexts].
    exists (tt :: texts). simpl.
    rewrite (rationale_prints_str item Hitem), Htexts. reflexivity.
Qed.

(** [str] of the rationales raises [ValueError] when one of them cannot be
    written. *)
Lemma rationales_str_raise (items : list pyval) (item r : pyval) :
  Forall (fun x => has_rationale x = true) items ->
  item ∈ items ->
  rationale_of item = Some r ->
  repr_raises r = true ->
  map_result (fun item => r ← item_rationale item; py_str r) items
  = Raise ValueError.
Proof.
  intros Hall Hitem Hr Hbad.
  induction Hall as [|x items Hx Hitems IH];
    [by apply not_elem_of_nil in Hitem|].
  simpl. unfold has_rationale, lit_contains in Hx.
  destruct x as [| | | | | | | | | | |kvs]; try discriminate.
  simpl. destruct (lit_getitem kvs "rationale") as [rx|] eqn:Hrx;
    [|discriminate].
  simpl. unfold py_str at 1. destruct (repr_raises rx) eqn:Hraise;
    [reflexivity|].
  apply elem_of_cons in Hitem as [->|Hitem].
  - simpl in Hr. congruence.
  - rewrite (IH Hitem). reflexivity.
Qed.






End PoolFacts.

(** ** The check of the loop and the validator of the specification *)

Section ValidatorFacts.
Context {rt : Runtime}.

Lemma proposed_candidate_item_valid (n : nat) (item : pyval) :
  proposed_candidate n item = true -> item_valid n item = true.
Proof.
  unfold proposed_candidate, item_valid, has_rationale, values_of.
  destruct item; try discriminate.
  intros [Hrat Hvalues]%andb_prop. rewrite Hrat. unfold lit_contains.
  destruct (lit_getitem kvs "values") as [v|]; [|discriminate].
  destruct v; try discriminate;
    apply andb_prop in Hvalues as [-> _]; reflexivity.
Qed.

(** What the specification calls valid passes the check of the loop. *)
Lemma spec_valid_validate (n_vars pool_size : nat) (raw : string) :
  spec_valid n_vars pool_size raw = true ->
  exists items,
    literal_eval (str_strip raw) = Some (PList items)
    /\ validate n_vars pool_size raw = Some items.
Proof.
  unfold spec_valid, validate.
  destruct (literal_eval (str_strip raw)) as [v|]; [|discriminate].
  destruct v; try discriminate.
  intros [Hlen Hall]%andb_prop. exists l. split; [reflexivity|].
  rewrite Hlen, andb_true_r.
  replace (forallb (item_valid n_vars) l) with true; [reflexivity|].
  symmetry. apply forallb_forall. intros item Hitem.
  apply proposed_candidate_item_valid.
  rewrite forallb_forall in Hall. auto.
Qed.

(** What passes the check of the loop has the shape that the specification
    asks for, entries apart: a list of [pool_size] dicts, each with a
    ['rationale'] and with ['values'], a list or tuple of length [n_vars]. *)
Lemma validate_shape (n_vars pool_size : nat) (raw : string)
    (items : list pyval) :
  validate n_vars pool_size raw = Some items ->
  literal_eval (str_strip raw) = Some (PList items)
  /\ length items = pool_size
  /\ Forall (fun item =>
               has_rationale item = true
               /\ exists l, values_of item = Some l /\ length l = n_vars)
            items.
Proof.
  unfold validate.
  destruct (literal_eval (str_strip raw)) as [v|]; [|discriminate].
  destruct v; try discriminate.
  destruct (forallb (item_valid n_vars) l && Nat.eqb (length l) pool_size)
    eqn:Hok; [|discriminate].
  intros [= <-]. apply andb_prop in Hok as [Hall Hlen%Nat.eqb_eq].
  repeat split; try assumption.
  apply Forall_forall. intros item Hitem%list_elem_of_In.
  rewrite forallb_forall in Hall. specialize (Hall item Hitem).
  unfold item_valid in Hall. destruct item; try discriminate.
  apply andb_prop in Hall as [[_ Hrat]%andb_prop Hvalues].
  split; [exact Hrat|]. unfold values_of.
  destruct (lit_getitem kvs "values") as [v|]; [|discriminate].
  destruct v; try discriminate; apply Nat.eqb_eq in Hvalues; eauto.
Qed.

(** And every text of that shape passes it, whatever the entries of
    ['values'] are. *)
Lemma validate_complete (n_vars pool_size : nat) (raw : string)
    (items : list pyval) :
  literal_eval (str_strip raw) = Some (PList items) ->
  length items = pool_size ->
  Forall (fun item =>
            has_rationale item = true
            /\ exists l, values_of item = Some l /\ length l = n_vars)
         items ->
  validate n_vars pool_size raw = Some items.
Proof.
  intros Hparse Hlen Hitems. unfold validate. rewrite Hparse.
  replace (Nat.eqb (length items) pool_size) with true
    by (symmetry; apply Nat.eqb_eq; assumption).
  replace (forallb (item_valid n_vars) items) with true; [reflexivity|].
  symmetry. apply forallb_forall. intros item Hitem%list_elem_of_In.
  rewrite Forall_forall in Hitems.
  destruct (Hitems item Hitem) as (Hrat & l & Hl & Hn).
  unfold item_valid, has_rationale, values_of in *.
  destruct item; try discriminate. rewrite Hrat. unfold lit_contains.
  destruct (lit_getitem kvs "values") as [v|]; [|discriminate].
  destruct v; try discriminate; injection Hl as ->; simpl;
    apply Nat.eqb_eq; assumption.
Qed.


End ValidatorFacts.




(** C4: the check of the loop does not look at the entries of ['values'].
    With one candidate of one parameter, the answer
    [[{'values': ['abc'], 'rationale': 'r'}]] passes it, although its entry
    is not a number and the validator of the specification rejects it; the
    loop is left at once, without a retry. *)
Theorem validate_accepts_non_numeric :
  validate (rt := example_runtime) 1 1 non_numeric_answer
  = Some [PDict [(PStr "values", PList [PStr "abc"]);
                 (PStr "rationale", PStr "r")]]
  /\ numeric_coercible (rt := example_runtime) (PStr "abc") = false
  /\ spec_valid (rt := example_runtime) 1 1 non_numeric_answer = false
  /\ length (invocations
               (diversity_agent_node (rt := example_runtime)
                  (constant_llm non_numeric_answer) 10 small_state tt))
     = 1%nat.
Proof. repeat split; vm_compute; reflexivity. Qed.

(** C5: a state of the documented shape and an answer that passes the check
    of the loop, on which the node raises instead of returning a state:
    [np.array(['abc'], dtype=float)] fails after the loop, outside the
    [try]. *)
Theorem node_raises_on_non_numeric :
  valid_state small_state = true
  /\ outcome (diversity_agent_node (rt := example_runtime)
                (constant_llm non_numeric_answer) 10 small_state tt)
     = Raise ValueError.
Proof. split; vm_compute; reflexivity. Qed.

(** C10: with [most_recent = 0] the history window is not empty: it is the
    whole history, all the rows of [all_para] (of [parent_pool] when that
    key is absent), and the diversity scores are computed from it. *)
Theorem zero_window_is_whole_history {rt : Runtime}
    (st : gmap string pyobj) :
  valid_state st = true ->
  st !! "most_recent" = Some (OInt 0) ->
  exists p h,
    prepare st = Ok p
    /\ dict_get_default st "all_para" (p_parent_pool p) = OArr h
    /\ history_window st (p_parent_pool p) = Ok h
    /\ np_std_axis0 h = Ok (p_param_diversity p).
Proof.
  intros Hv Hk.
  destruct (valid_state_prepare st Hv) as (p & _ & _ & _ & Hp & _).
  destruct (prepare_inv st p Hp) as (_ & _ & _ & w & Hw & Hstd).
  exists p. unfold history_window in Hw. unfold dict_get_default in Hw at 1.
  rewrite Hk in Hw. simpl in Hw.
  destruct (dict_get_default st "all_para" (p_parent_pool p))
    as [| | | | | | |h] eqn:Hh; try discriminate.
  exists h.
  assert (Hslice : arr_slice_from h (- 0) = Ok h).
  { unfold arr_slice_from in *. destruct h as [[|k rest] d]; [discriminate|].
    simpl. unfold slice_start. simpl. rewrite Nat.sub_0_r. reflexivity. }
  assert (w = h) as -> by congruence.
  repeat split; try assumption.
  unfold history_window. unfold dict_get_default at 1.
  rewrite Hk, Hh. exact Hslice.
Qed.

Lemma zero_window_is_whole_history_witness :
  exists p h,
    prepare (rt := example_runtime) zero_window_state = Ok p
    /\ dict_get_default zero_window_state "all_para" (p_parent_pool p) = OArr h
    /\ history_window zero_window_state (p_parent_pool p) = Ok h
    /\ np_std_axis0 h = Ok (p_param_diversity p).
Proof.
  apply (zero_window_is_whole_history (rt := example_runtime)
           zero_window_state).
  - vm_compute. reflexivity.
  - vm_compute. reflexivity.
Defined.




(** ** The prompts depend on the keys that the node reads, and on nothing
    else *)

Lemma prepare_agree {rt : Runtime} (s1 s2 : gmap string pyobj) :
  (forall k, k ∈ input_keys -> s1 !! k = s2 !! k) ->
  prepare s1 = prepare s2.
Proof.
  intros Hagree.
  assert (H1 : s1 !! "parent_pool" = s2 !! "parent_pool")
    by (apply Hagree, list_elem_of_In; simpl; auto 10).
  assert (H2 : s1 !! "parent_objectives" = s2 !! "parent_objectives")
    by (apply Hagree, list_elem_of_In; simpl; auto 10).
  assert (H3 : s1 !! "most_recent" = s2 !! "most_recent")
    by (apply Hagree, list_elem_of_In; simpl; auto 10).
  assert (H4 : s1 !! "all_para" = s2 !! "all_para")
    by (apply Hagree, list_elem_of_In; simpl; auto 10).
  assert (H5 : s1 !! "bounds" = s2 !! "bounds")
    by (apply Hagree, list_elem_of_In; simpl; auto 10).
  assert (H6 : s1 !! "budget" = s2 !! "budget")
    by (apply Hagree, list_elem_of_In; simpl; auto 10).
  assert (H7 : s1 !! "summary" = s2 !! "summary")
    by (apply Hagree, list_elem_of_In; simpl; auto 10).
  unfold prepare, history_window, getitem, dict_get_default.
  rewrite H1, H2, H3, H4, H5, H6, H7. reflexivity.
Qed.

(** C7: two calls of the node on states that agree on the keys it reads
    ([parent_pool], [parent_objectives], [most_recent], [all_para],
    [bounds], [budget], [summary]) send the same system message and the same
    user message in their first invocation, whatever the two language
    models are and however many attempts each call allows. *)
Theorem context_assembler_deterministic {rt : Runtime} {LM1 LM2 : Type}
    (llm1 : LM1 -> list message -> string * LM1)
    (llm2 : LM2 -> list message -> string * LM2)
    (max_retries1 max_retries2 : Z)
    (s1 s2 : gmap string pyobj) (o1 : LM1) (o2 : LM2) :
  valid_state s1 = true ->
  (forall k, k ∈ input_keys -> s1 !! k = s2 !! k) ->
  1 <= max_retries1 ->
  1 <= max_retries2 ->
  exists instruction context,
    fst <$> head (invocations (diversity_agent_node llm1 max_retries1 s1 o1))
    = Some (conversation instruction context)
    /\ fst <$> head (invocations (diversity_agent_node llm2 max_retries2 s2 o2))
       = Some (conversation instruction context).
Proof.
  intros Hv Hagree Hmr1 Hmr2.
  destruct (valid_state_prepare s1 Hv) as (p & _ & _ & _ & Hp1 & _).
  assert (Hp2 : prepare s2 = Ok p) by (rewrite <- (prepare_agree s1 s2); done).
  exists (p_system_message p), (p_user_msg p).
  rewrite (node_invocations llm1 max_retries1 s1 o1 p Hp1).
  rewrite (node_invocations llm2 max_retries2 s2 o2 p Hp2).
  split; apply first_invocation; assumption.
Qed.

Lemma context_assembler_deterministic_witness :
  exists instruction context,
    fst <$> head (invocations
                    (diversity_agent_node (rt := example_runtime)
                       (constant_llm bad_answer) 3 example_state tt))
    = Some (conversation instruction context)
    /\ fst <$> head (invocations
                       (diversity_agent_node (rt := example_runtime)
                          scripted_llm 1 later_state [good_answer]))
       = Some (conversation instruction context).
Proof.
  apply (context_assembler_deterministic (rt := example_runtime)
           (constant_llm bad_answer) scripted_llm 3 1
           example_state later_state tt [good_answer]).
  - vm_compute. reflexivity.
  - intros k Hk. unfold later_state. rewrite lookup_insert_ne; [reflexivity|].
    intros <-. apply list_elem_of_In in Hk. simpl in Hk.
    repeat (destruct Hk as [Hk|Hk]; [discriminate|]). exact Hk.
  - lia.
  - lia.
Defined.

(** ** The diversity scores *)

Lemma nth_zip_with (f : float -> float -> float) (u v : list float) (j : nat) :
  (j < length u)%nat -> (j < length v)%nat ->
  nth j (zip_with f u v) PrimFloat.zero
  = f (nth j u PrimFloat.zero) (nth j v PrimFloat.zero).
Proof.
  revert v j. induction u as [|x u IH]; intros [|y v] [|j] Hu Hv;
    simpl in *; try lia; [reflexivity|].
  apply IH; lia.
Qed.

Lemma nth_map_seq (g : nat -> float) (n j : nat) :
  (j < n)%nat -> nth j (map g (seq 0 n)) PrimFloat.zero = g j.
Proof.
  intros Hj. rewrite nth_lookup, list_lookup_fmap, lookup_seq_lt by assumption.
  reflexivity.
Qed.

Lemma list_as_map_nth (l : list float) (n : nat) :
  length l = n -> l = map (fun j => nth j l PrimFloat.zero) (seq 0 n).
Proof.
  intros Hlen. apply list_eq. intros i. rewrite list_lookup_fmap.
  destruct (decide (i < n)%nat) as [Hlt|Hge].
  - rewrite lookup_seq_lt by assumption. simpl. rewrite nth_lookup.
    destruct (lookup_lt_is_Some_2 l i) as [x Hx]; [lia|]. rewrite Hx.
    reflexivity.
  - rewrite lookup_seq_ge by lia. apply lookup_ge_None. lia.
Qed.

Lemma map_const_seq (x : float) (n s : nat) :
  map (fun _ => x) (seq s n) = replicate n x.
Proof.
  revert s. induction n as [|n IH]; intros s; simpl; [reflexivity|].
  by rewrite IH.
Qed.

Lemma chunks_length (k stride : nat) (d : list float) :
  length (chunks k stride d) = k.
Proof.
  revert d. induction k as [|k IH]; intros d; simpl; [reflexivity|].
  by rewrite IH.
Qed.

Lemma chunks_rows (k stride : nat) (d : list float) :
  length d = (k * stride)%nat ->
  Forall (fun r => length r = stride) (chunks k stride d).
Proof.
  revert d. induction k as [|k IH]; intros d Hlen; simpl; constructor.
  - rewrite length_take. lia.
  - apply IH. rewrite length_drop. lia.
Qed.

(** Dropping leading rows of the data drops them from the chunks. *)
Lemma chunks_drop (k s stride : nat) (d : list float) :
  chunks (k - s) stride (drop (s * stride) d) = drop s (chunks k stride d).
Proof.
  revert k d. induction s as [|s IH]; intros k d.
  - rewrite Nat.sub_0_r. reflexivity.
  - destruct k as [|k]; [reflexivity|].
    change (S k - S s)%nat with (k - s)%nat.
    change (drop (S s) (chunks (S k) stride d))
      with (drop s (chunks k stride (drop stride d))).
    rewrite <- IH, drop_drop. reflexivity.
Qed.

(** Adding rows to an accumulator adds each column to its entry. *)
Lemma fold_vadd_columns (n : nat) (rs : list (list float)) (acc : list float) :
  length acc = n ->
  Forall (fun r => length r = n) rs ->
  fold_left vadd rs acc
  = map (fun j => fold_left PrimFloat.add (column rs j)
                    (nth j acc PrimFloat.zero))
        (seq 0 n).
Proof.
  intros Hacc Hrs. revert acc Hacc.
  induction Hrs as [|r rs Hr Hrs IH]; intros acc Hacc.
  - simpl. apply list_as_map_nth. assumption.
  - simpl. rewrite IH by (unfold vadd; rewrite length_zip_with; lia).
    apply map_ext_in. intros j Hj%in_seq.
    unfold vadd. rewrite nth_zip_with by lia. reflexivity.
Qed.

Lemma nth_replicate_zero (n j : nat) :
  nth j (replicate n PrimFloat.zero) PrimFloat.zero = PrimFloat.zero.
Proof.
  revert j. induction n as [|n IH]; intros [|j]; simpl; auto.
Qed.

(** The rows of a matrix of one column, laid end to end, are its column. *)
Lemma concat_one_column (rs : list (list float)) :
  Forall (fun r => length r = 1%nat) rs ->
  concat rs = column rs 0.
Proof.
  induction 1 as [|r rs Hr Hrs IH]; [reflexivity|].
  destruct r as [|x [|y r]]; try discriminate.
  simpl. rewrite IH. reflexivity.
Qed.

Lemma umr_sum_columns (n : nat) (rs : list (list float)) :
  Forall (fun r => length r = n) rs ->
  umr_sum n rs = map (fun j => column_sum n (column rs j)) (seq 0 n).
Proof.
  intros Hrs. unfold umr_sum, column_sum.
  destruct (Nat.eqb_spec n 1) as [-> | Hn].
  - simpl. rewrite (concat_one_column rs Hrs). reflexivity.
  - rewrite (fold_vadd_columns n) by (assumption || apply length_replicate).
    apply map_ext. intros j. rewrite nth_replicate_zero. reflexivity.
Qed.

(** NumPy's computation over the rows is the population standard deviation
    of each column. *)
Lemma std_rows (n : nat) (rs : list (list float)) :
  Forall (fun r => length r = n) rs ->
  let rcount := float_of_count (length rs) in
  let arrmean := vdiv (umr_sum n rs) rcount in
  let x := map (fun r => vmul r r) (map (fun r => vsub r arrmean) rs) in
  map PrimFloat.sqrt (vdiv (umr_sum n x) rcount)
  = map (fun j => population_std (column_sum n) (column rs j)) (seq 0 n).
Proof.
  intros Hrs rcount arrmean x.
  assert (Hmean : arrmean
                  = map (fun j => (column_sum n (column rs j) / rcount)%float)
                        (seq 0 n)).
  { unfold arrmean, vdiv. rewrite umr_sum_columns by assumption.
    rewrite map_map. reflexivity. }
  assert (Hmeanlen : length arrmean = n)
    by (rewrite Hmean, length_map, length_seq; reflexivity).
  assert (Hx : Forall (fun r => length r = n) x).
  { unfold x. rewrite map_map. apply Forall_forall.
    intros r' Hr'%list_elem_of_In%in_map_iff. destruct Hr' as (r & <- & Hr).
    rewrite Forall_forall in Hrs. specialize (Hrs r).
    rewrite list_elem_of_In in Hrs. specialize (Hrs Hr).
    unfold vmul, vsub. rewrite !length_zip_with. lia. }
  assert (Hcol : forall j, (j < n)%nat ->
             column x j
             = map (fun v =>
                      let mean := (column_sum n (column rs j) / rcount)%float in
                      ((v - mean) * (v - mean))%float)
                   (column rs j)).
  { intros j Hj. unfold column, x. rewrite !map_map.
    apply map_ext_in. intros r Hr.
    rewrite Forall_forall in Hrs. specialize (Hrs r).
    rewrite list_elem_of_In in Hrs. specialize (Hrs Hr).
    unfold vmul, vsub.
    rewrite nth_zip_with by (rewrite length_zip_with; lia).
    rewrite nth_zip_with by lia.
    rewrite Hmean at 1 2. rewrite nth_map_seq by assumption. reflexivity. }
  unfold vdiv. rewrite umr_sum_columns by assumption. rewrite !map_map.
  apply map_ext_in. intros j Hj%in_seq.
  unfold population_std. rewrite Hcol by lia.
  unfold rcount, column. rewrite length_map. reflexivity.
Qed.

(** [np.std(w, axis=0)] is, entry by entry, the population standard
    deviation of the columns of [w]. *)
Lemma np_std_axis0_columns (w : ndarray) :
  shape w <> [] ->
  well_shaped w ->
  np_std_axis0 w
  = Ok {| shape := tail (shape w);
          data := map (population_std (column_sum (product (tail (shape w)))))
                      (columns w) |}.
Proof.
  unfold np_std_axis0, columns, rows, well_shaped.
  destruct (shape w) as [|k rest]; [done|]. intros _ Hlen. simpl in Hlen.
  simpl hd. simpl tail. cbv zeta.
  pose proof (chunks_rows k (product rest) (data w) Hlen) as Hrows.
  pose proof (std_rows (product rest) _ Hrows) as Hstd. cbv zeta in Hstd.
  rewrite chunks_length in Hstd. rewrite Hstd, map_map. reflexivity.
Qed.

(** The length of a run is enough fuel for its pairwise sum: more fuel
    gives the same sum. *)
Lemma pairwise_sum_fuel (fuel fuel' : nat) (a : list float) :
  (length a <= fuel)%nat ->
  (length a <= fuel')%nat ->
  pairwise_sum fuel a = pairwise_sum fuel' a.
Proof.
  revert fuel' a. induction fuel as [|fuel IH]; intros fuel' a Hf Hf'.
  - destruct a; [|simpl in Hf; lia]. destruct fuel'; reflexivity.
  - destruct fuel' as [|fuel'].
    + destruct a; [|simpl in Hf'; lia]. reflexivity.
    + destruct a as [|r0 [|r1 [|r2 [|r3 [|r4 [|r5 [|r6 [|r7 a']]]]]]]];
        try reflexivity.
      set (l := r0 :: r1 :: r2 :: r3 :: r4 :: r5 :: r6 :: r7 :: a') in *.
      change (pairwise_sum (S fuel) l)
        with (if (length l <=? 128)%nat
              then accumulate8 r0 r1 r2 r3 r4 r5 r6 r7 a'
              else (pairwise_sum fuel
                      (take (length l / 2 - (length l / 2) mod 8) l)
                    + pairwise_sum fuel
                        (drop (length l / 2 - (length l / 2) mod 8) l))%float).
      change (pairwise_sum (S fuel') l)
        with (if (length l <=? 128)%nat
              then accumulate8 r0 r1 r2 r3 r4 r5 r6 r7 a'
              else (pairwise_sum fuel'
                      (take (length l / 2 - (length l / 2) mod 8) l)
                    + pairwise_sum fuel'
                        (drop (length l / 2 - (length l / 2) mod 8) l))%float).
      destruct (Nat.leb_spec (length l) 128) as [Hle|Hgt]; [reflexivity|].
      set (n2 := (length l / 2 - (length l / 2) mod 8)%nat).
      assert (Hhalf : (length l / 2 < length l)%nat)
        by (apply Nat.div_lt; lia).
      assert (Hlow : (64 <= length l / 2)%nat)
        by (apply Nat.div_le_lower_bound; lia).
      assert (Hmod : ((length l / 2) mod 8 < 8)%nat)
        by (apply Nat.mod_upper_bound; lia).
      assert (Hn2 : (1 <= n2 < length l)%nat) by (unfold n2; lia).
      rewrite (IH fuel' (take n2 l)), (IH fuel' (drop n2 l));
        try reflexivity; rewrite ?length_take, ?length_drop; lia.
Qed.

Lemma slice_last_rows (h : ndarray) (M n K : nat) :
  shape h = [M; n] ->
  well_shaped h ->
  (1 <= K <= M)%nat ->
  exists w,
    arr_slice_from h (- Z.of_nat K) = Ok w
    /\ shape w = [K; n]
    /\ well_shaped w
    /\ rows w = drop (M - K) (rows h).
Proof.
  intros Hshape Hwell HK. unfold arr_slice_from, well_shaped, rows in *.
  rewrite Hshape in *. simpl in Hwell.
  assert (Hstart : slice_start M (- Z.of_nat K) = (M - K)%nat).
  { unfold slice_start. destruct (Z.ltb_spec (- Z.of_nat K) 0); lia. }
  rewrite Hstart. eexists. split; [reflexivity|]. simpl.
  replace (M - (M - K))%nat with K by lia.
  split; [reflexivity|]. split.
  - rewrite length_drop. nia.
  - rewrite <- (chunks_drop M (M - K)). f_equal. lia.
Qed.

(** C8, the claim as it is written, fails: the scores are not sample
    standard deviations.  For the window of the two rows [[0]] and [[2]]
    the node computes the score 1, and the sample standard deviation of the
    column is the square root of 2. *)
Lemma diversity_report_not_sample_std :
  ~ (forall (rt : Runtime) (st : gmap string pyobj) (p : prepared)
            (w : ndarray) (K n : nat),
        prepare st = Ok p ->
        history_window st (p_parent_pool p) = Ok w ->
        shape w = [K; n] ->
        (1 <= K)%nat ->
        data (p_param_diversity p) = map sample_std (columns w)).
Proof.
  intros Hclaim.
  assert (Hrun : exists p,
             prepare (rt := example_runtime) windowed_state = Ok p
             /\ history_window windowed_state (p_parent_pool p)
                = Ok {| shape := [2; 1]%nat; data := [0; 2]%float |}
             /\ data (p_param_diversity p) = [1]%float).
  { eexists. repeat split; vm_compute; reflexivity. }
  destruct Hrun as (p & Hp & Hw & Hscore).
  specialize (Hclaim example_runtime windowed_state p _ 2%nat 1%nat Hp Hw
                eq_refl ltac:(lia)).
  rewrite Hscore in Hclaim.
  apply (f_equal (fun l => match l with
                           | [x] => PrimFloat.eqb x 1
                           | _ => false
                           end)) in Hclaim.
  vm_compute in Hclaim. discriminate.
Qed.

(** C8, amended: when the history has [M] rows of [n] parameters and
    [1 <= most_recent = K <= M], the history window is the last [K] rows of
    the history (of [all_para], or of [parent_pool] when that key is
    absent; [K] is 100 when [most_recent] is absent), and the diversity
    report is a vector of length [n] whose entry [i] is the population
    standard deviation of column [i] of the window: the squared deviations
    from the mean are divided by [K], not by [K - 1].  The sums are those
    of floating-point numbers in NumPy's order. *)
Theorem diversity_report_population_std {rt : Runtime}
    (st : gmap string pyobj) (p : prepared) (h : ndarray) (M n K : nat) :
  prepare st = Ok p ->
  dict_get_default st "all_para" (p_parent_pool p) = OArr h ->
  shape h = [M; n] ->
  well_shaped h ->
  dict_get_default st "most_recent" (OInt 100) = OInt (Z.of_nat K) ->
  (1 <= K <= M)%nat ->
  exists w,
    history_window st (p_parent_pool p) = Ok w
    /\ shape w = [K; n]
    /\ rows w = drop (M - K) (rows h)
    /\ shape (p_param_diversity p) = [n]
    /\ length (data (p_param_diversity p)) = n
    /\ forall i, (i < n)%nat ->
                 data (p_param_diversity p) !! i
                 = Some (population_std (column_sum n) (column (rows w) i)).
Proof.
  intros Hp Hh Hshape Hwell Hk HK.
  destruct (slice_last_rows h M n K Hshape Hwell HK)
    as (w & Hslice & Hwshape & Hwwell & Hrows).
  assert (Hwin : history_window st (p_parent_pool p) = Ok w).
  { unfold history_window. rewrite Hk, Hh. exact Hslice. }
  apply prepare_inv in Hp as (_ & _ & _ & w' & Hw' & Hstd).
  rewrite Hwin in Hw'. injection Hw' as <-.
  rewrite np_std_axis0_columns in Hstd
    by (assumption || (rewrite Hwshape; done)).
  injection Hstd as <-. simpl.
  exists w. split; [exact Hwin|]. split; [exact Hwshape|].
  split; [exact Hrows|]. rewrite Hwshape. simpl.
  unfold columns. rewrite Hwshape. simpl. rewrite Nat.mul_1_r.
  split; [reflexivity|]. split.
  - rewrite !length_map, length_seq. reflexivity.
  - intros i Hi. rewrite !list_lookup_fmap, lookup_seq_lt by assumption.
    reflexivity.
Qed.

Lemma diversity_report_population_std_witness :
  exists p w,
    prepare (rt := example_runtime) long_window_state = Ok p
    /\ data (p_param_diversity p) = [3307189138830738]%float
    /\ history_window long_window_state (p_parent_pool p) = Ok w
    /\ shape w = [8; 1]%nat
    /\ rows w = drop (8 - 8) (rows {| shape := [8; 1]%nat;
                                      data := [1e16; 1; 1; 1; 1; 1; 1; 1]%float |})
    /\ shape (p_param_diversity p) = [1%nat]
    /\ length (data (p_param_diversity p)) = 1%nat
    /\ forall i, (i < 1)%nat ->
                 data (p_param_diversity p) !! i
                 = Some (population_std (column_sum 1) (column (rows w) i)).
Proof.
  assert (Hrun : exists p,
             prepare (rt := example_runtime) long_window_state = Ok p
             /\ p_parent_pool p = matrix 1 1 [0.5]%float
             /\ data (p_param_diversity p) = [3307189138830738]%float).
  { eexists. repeat split; vm_compute; reflexivity. }
  destruct Hrun as (p & Hp & Hpool & Hscore). exists p.
  destruct (diversity_report_population_std (rt := example_runtime)
              long_window_state p
              {| shape := [8; 1]%nat;
                 data := [1e16; 1; 1; 1; 1; 1; 1; 1]%float |} 8 1 8)
    as (w & Hw); [exact Hp | | | | | |
                  exists w; split; [exact Hp | split; [exact Hscore | exact Hw]]].
  - rewrite Hpool. vm_compute. reflexivity.
  - reflexivity.
  - reflexivity.
  - vm_compute. reflexivity.
  - lia.
Defined.

(** * Further properties of the node *)

(** ** Which answers the check of the loop accepts *)

(** X1: the check accepts a text exactly when it parses to a list of
    [pool_size] dicts, each with a ['rationale'] key and with ['values'], a
    list or tuple of length [n_vars]; the entries of ['values'] play no
    part. *)
Theorem validate_accepts_exactly {rt : Runtime} (n_vars pool_size : nat)
    (raw : string) (items : list pyval) :
  validate n_vars pool_size raw = Some items
  <-> literal_eval (str_strip raw) = Some (PList items)
      /\ length items = pool_size
      /\ Forall (fun item =>
                   has_rationale item = true
                   /\ exists l, values_of item = Some l /\ length l = n_vars)
                items.
Proof.
  split.
  - apply validate_shape.
  - intros (Hparse & Hlen & Hitems). apply validate_complete; assumption.
Qed.

(** ** Errors before the first invocation *)

Section PrepareErrors.
Context {rt : Runtime}.

(** The steps of the lines before the loop, for a state of the documented
    shape. *)
Lemma valid_state_steps (st : gmap string pyobj) :
  valid_state st = true ->
  exists pp po m n m' n' w dv bs mr bu sm,
    st !! "parent_pool" = Some (OArr pp)
    /\ st !! "parent_objectives" = Some (OArr po)
    /\ shape pp = [m; n]
    /\ shape po = [m'; n']
    /\ history_window st (OArr pp) = Ok w
    /\ np_std_axis0 w = Ok dv
    /\ bounds_str (dict_get_default st "bounds" ONone) = Ok bs
    /\ py_format (dict_get_default st "most_recent" (OInt 100)) = Ok mr
    /\ py_format (dict_get_default st "budget" (OInt 2)) = Ok bu
    /\ st !! "summary" = Some (ODict sm)
    /\ forall k, k ∈ summary_keys -> is_Some (sm !! k).
Proof.
  unfold valid_state. intros Hv.
  repeat (apply andb_prop in Hv as [Hv ?]).
  destruct (is_matrix_inv _ Hv) as (pp & m & n & Hpp & Hshape).
  destruct (is_matrix_inv (st !! "parent_objectives"))
    as (po & m' & n' & Hpo & Hshape'); [assumption|].
  destruct (history_window_ok st pp) as (w & Hw & Hwshape); try assumption.
  { rewrite Hshape. done. }
  destruct (np_std_axis0_ok w Hwshape) as [dv Hdv].
  destruct (bounds_str_ok st) as [bs Hbs]; [assumption|].
  destruct (py_format_optional_int st "most_recent" 100) as [mr Hmr];
    [assumption|].
  destruct (py_format_optional_int st "budget" 2) as [bu Hbu]; [assumption|].
  unfold is_summary in *.
  destruct (st !! "summary") as [[| | | | | |sm|]|] eqn:Hsum; try discriminate.
  exists pp, po, m, n, m', n', w, dv, bs, mr, bu, sm.
  repeat split; try assumption.
  intros k Hk%list_elem_of_In.
  match goal with
  | Hall : forallb _ summary_keys = true |- _ =>
      rewrite forallb_forall in Hall; apply Hall in Hk
  end.
  apply bool_decide_eq_true in Hk. exact Hk.
Qed.

End PrepareErrors.

(** Lookups in a state after [delete] and insert. *)
Ltac lookups :=
  repeat first
    [ rewrite lookup_delete_eq | rewrite lookup_insert_eq
    | rewrite lookup_delete_ne by done | rewrite lookup_insert_ne by done ].

Lemma prepare_missing {rt : Runtime} (st : gmap string pyobj) (k : string) :
  valid_state st = true -> k ∈ required_keys ->
  prepare (delete k st) = Raise KeyError.
Proof.
  intros Hv Hk.
  destruct (valid_state_steps st Hv)
    as (pp & po & m & n & m' & n' & w & dv & bs & mr & bu & sm
        & Hpp & Hpo & Hshape & Hshape' & Hw & Hdv & Hbs & Hmr & Hbu & Hsum & _).
  unfold history_window, dict_get_default in Hw, Hbs, Hmr, Hbu.
  apply list_elem_of_In in Hk. simpl in Hk.
  unfold prepare, getitem, history_window, dict_get_default.
  destruct Hk as [<-|[<-|[<-|[]]]]; lookups.
  - reflexivity.
  - rewrite Hpp. reflexivity.
  - rewrite Hpp, Hpo. simpl. rewrite Hw. simpl. rewrite Hshape, Hshape'. simpl.
    rewrite Hbs. simpl. rewrite Hdv. reflexivity.
Qed.

Lemma node_prepare_raise {rt : Runtime} {LM : Type}
    (llm : LM -> list message -> string * LM) (max_retries : Z)
    (st : gmap string pyobj) (o : LM) (e : exn) :
  prepare st = Raise e ->
  diversity_agent_node llm max_retries st o
  = {| outcome := Raise e; oracle_after := o; invocations := [];
       printed := [] |}.
Proof. intros Hp. unfold diversity_agent_node. rewrite Hp. reflexivity. Qed.

(** X2: a state of the documented shape from which one of the keys
    [parent_pool], [parent_objectives], [summary] is removed makes the node
    raise [KeyError] before the language model is invoked; nothing is
    printed. *)
Theorem missing_required_key {rt : Runtime} {LM : Type}
    (llm : LM -> list message -> string * LM) (max_retries : Z)
    (st : gmap string pyobj) (o : LM) (k : string) :
  valid_state st = true ->
  k ∈ required_keys ->
  let r := diversity_agent_node llm max_retries (delete k st) o in
  outcome r = Raise KeyError
  /\ invocations r = []
  /\ oracle_after r = o
  /\ printed r = [].
Proof.
  intros Hv Hk r. subst r.
  rewrite (node_prepare_raise llm max_retries _ o KeyError
             (prepare_missing st k Hv Hk)).
  repeat split.
Qed.

Lemma missing_required_key_witness :
  let r := diversity_agent_node (rt := example_runtime)
             (constant_llm good_answer) 10
             (delete "summary" example_state) tt in
  outcome r = Raise KeyError
  /\ invocations r = []
  /\ oracle_after r = tt
  /\ printed r = [].
Proof.
  apply (missing_required_key (rt := example_runtime)
           (constant_llm good_answer) 10 example_state tt "summary").
  - vm_compute. reflexivity.
  - apply list_elem_of_In. simpl. auto.
Defined.

Lemma prepare_missing_summary_entry {rt : Runtime} (st : gmap string pyobj)
    (sm : gmap string pyobj) (k : string) :
  valid_state st = true ->
  st !! "summary" = Some (ODict sm) ->
  k ∈ summary_keys ->
  prepare (<["summary" := ODict (delete k sm)]> st) = Raise KeyError.
Proof.
  intros Hv Hsm Hk.
  destruct (valid_state_steps st Hv)
    as (pp & po & m & n & m' & n' & w & dv & bs & mr & bu & sm'
        & Hpp & Hpo & Hshape & Hshape' & Hw & Hdv & Hbs & Hmr & Hbu & Hsum
        & Hkeys).
  assert (sm' = sm) as -> by congruence.
  unfold history_window, dict_get_default in Hw, Hbs, Hmr, Hbu.
  unfold prepare, getitem, history_window, dict_get_default.
  lookups.
  rewrite Hpp, Hpo. simpl. rewrite Hw. simpl. rewrite Hshape, Hshape'. simpl.
  rewrite Hbs. simpl. rewrite Hdv. simpl. unfold getitem.
  apply list_elem_of_In in Hk. simpl in Hk.
  destruct Hk as [<-|[<-|[<-|[<-|[]]]]]; lookups; try reflexivity.
  - destruct (Hkeys "param_param_corr") as [v1 ->];
      [apply list_elem_of_In; simpl; auto|]. reflexivity.
  - destruct (Hkeys "param_param_corr") as [v1 ->];
      [apply list_elem_of_In; simpl; auto|].
    destruct (Hkeys "param_obj_corr") as [v2 ->];
      [apply list_elem_of_In; simpl; auto|]. reflexivity.
  - destruct (Hkeys "param_param_corr") as [v1 ->];
      [apply list_elem_of_In; simpl; auto|].
    destruct (Hkeys "param_obj_corr") as [v2 ->];
      [apply list_elem_of_In; simpl; auto|].
    destruct (Hkeys "pca_loadings") as [v3 ->];
      [apply list_elem_of_In; simpl; auto|]. reflexivity.
Qed.

(** X3: when one of the four entries of the summary is missing, the node
    raises [KeyError] before the language model is invoked. *)
Theorem missing_summary_entry {rt : Runtime} {LM : Type}
    (llm : LM -> list message -> string * LM) (max_retries : Z)
    (st : gmap string pyobj) (o : LM) (sm : gmap string pyobj) (k : string) :
  valid_state st = true ->
  st !! "summary" = Some (ODict sm) ->
  k ∈ summary_keys ->
  let r := diversity_agent_node llm max_retries
             (<["summary" := ODict (delete k sm)]> st) o in
  outcome r = Raise KeyError /\ invocations r = [].
Proof.
  intros Hv Hsm Hk r. subst r.
  rewrite (node_prepare_raise llm max_retries _ o KeyError
             (prepare_missing_summary_entry st sm k Hv Hsm Hk)).
  split; reflexivity.
Qed.

Lemma prepare_bounds_arity {rt : Runtime} (st : gmap string pyobj)
    (l : list pyobj) :
  valid_state st = true ->
  length l <> 2%nat ->
  prepare (<["bounds" := OTuple l]> st) = Raise ValueError
  /\ prepare (<["bounds" := OList l]> st) = Raise ValueError.
Proof.
  intros Hv Hl.
  destruct (valid_state_steps st Hv)
    as (pp & po & m & n & m' & n' & w & dv & bs & mr & bu & sm
        & Hpp & Hpo & Hshape & Hshape' & Hw & Hdv & Hbs & Hmr & Hbu & Hsum & _).
  unfold history_window, dict_get_default in Hw, Hbs, Hmr, Hbu.
  unfold prepare, getitem, history_window, dict_get_default.
  lookups.
  rewrite Hpp, Hpo. simpl. rewrite Hw. simpl. rewrite Hshape, Hshape'. simpl.
  destruct l as [|x [|y [|z l]]]; simpl in Hl; try done.
Qed.

(** X4: bounds given as a tuple that does not have exactly two elements
    make the node raise [ValueError], at [lower, upper = bounds], before the
    language model is invoked. *)
Theorem bounds_of_wrong_arity {rt : Runtime} {LM : Type}
    (llm : LM -> list message -> string * LM) (max_retries : Z)
    (st : gmap string pyobj) (o : LM) (l : list pyobj) :
  valid_state st = true ->
  length l <> 2%nat ->
  let r := diversity_agent_node llm max_retries (<["bounds" := OTuple l]> st) o in
  outcome r = Raise ValueError /\ invocations r = [].
Proof.
  intros Hv Hl r. subst r.
  rewrite (node_prepare_raise llm max_retries _ o ValueError
             (proj1 (prepare_bounds_arity st l Hv Hl))).
  split; reflexivity.
Qed.

Lemma node_invocations_prepare {rt : Runtime} {LM : Type}
    (llm : LM -> list message -> string * LM) (max_retries : Z)
    (s1 s2 : gmap string pyobj) (o : LM) :
  prepare s1 = prepare s2 ->
  invocations (diversity_agent_node llm max_retries s1 o)
  = invocations (diversity_agent_node llm max_retries s2 o).
Proof.
  intros Heq. destruct (prepare s2) as [p|e] eqn:Hp2.
  - rewrite (node_invocations llm max_retries s1 o p Heq).
    rewrite (node_invocations llm max_retries s2 o p Hp2). reflexivity.
  - rewrite (node_invocations_raise llm max_retries s1 o e Heq).
    rewrite (node_invocations_raise llm max_retries s2 o e Hp2). reflexivity.
Qed.

Lemma prepare_defaults {rt : Runtime} (st : gmap string pyobj) (pp : pyobj) :
  st !! "parent_pool" = Some pp ->
  prepare (delete "most_recent" st) = prepare (<["most_recent" := OInt 100]> st)
  /\ prepare (delete "all_para" st) = prepare (<["all_para" := pp]> st)
  /\ prepare (delete "bounds" st) = prepare (<["bounds" := ONone]> st)
  /\ prepare (delete "budget" st) = prepare (<["budget" := OInt 2]> st).
Proof.
  intros Hpp.
  repeat split; unfold prepare, getitem, history_window, dict_get_default;
    lookups; rewrite ?Hpp; reflexivity.
Qed.

(** ** Optional keys and the history window *)

(** X5: an absent optional key is the same as its default: without
    [most_recent] the node asks what it asks with [most_recent = 100],
    without [all_para] what it asks with the parent pool as history, without
    [bounds] what it asks with [bounds = None], and without [budget] what it
    asks with [budget = 2]. *)
Theorem optional_keys_default {rt : Runtime} {LM : Type}
    (llm : LM -> list message -> string * LM) (max_retries : Z)
    (st : gmap string pyobj) (o : LM) (pp : pyobj) :
  st !! "parent_pool" = Some pp ->
  let asks := fun s => invocations (diversity_agent_node llm max_retries s o) in
  asks (delete "most_recent" st) = asks (<["most_recent" := OInt 100]> st)
  /\ asks (delete "all_para" st) = asks (<["all_para" := pp]> st)
  /\ asks (delete "bounds" st) = asks (<["bounds" := ONone]> st)
  /\ asks (delete "budget" st) = asks (<["budget" := OInt 2]> st).
Proof.
  intros Hpp asks. subst asks.
  destruct (prepare_defaults st pp Hpp) as (H1 & H2 & H3 & H4).
  repeat split; apply node_invocations_prepare; assumption.
Qed.

(** X6: when the history has no more rows than [most_recent] (100 when the
    key is absent), the history window is the whole history. *)
Theorem window_of_short_history (st : gmap string pyobj) (pp : pyobj)
    (h : ndarray) (M : nat) (rest : list nat) (K : Z) :
  dict_get_default st "all_para" pp = OArr h ->
  shape h = M :: rest ->
  dict_get_default st "most_recent" (OInt 100) = OInt K ->
  Z.of_nat M <= K ->
  history_window st pp = Ok h.
Proof.
  intros Hh Hshape Hk HK. unfold history_window. rewrite Hk, Hh.
  unfold arr_slice_from. rewrite Hshape.
  assert (Hstart : slice_start M (- K) = 0%nat).
  { unfold slice_start. destruct (Z.ltb_spec (- K) 0); lia. }
  rewrite Hstart. simpl. rewrite Nat.sub_0_r.
  destruct h as [sh d]. simpl in *. subst sh. reflexivity.
Qed.

(** X7: a negative [most_recent = -j] is not rejected: the slice
    [all_para[j:]] drops the first [j] rows of the history and keeps the
    others, none when [j] is at least the number of rows. *)
Theorem negative_window_drops_oldest (st : gmap string pyobj) (pp : pyobj)
    (h : ndarray) (M : nat) (rest : list nat) (j : nat) :
  dict_get_default st "all_para" pp = OArr h ->
  shape h = M :: rest ->
  dict_get_default st "most_recent" (OInt 100) = OInt (- Z.of_nat j) ->
  exists w,
    history_window st pp = Ok w
    /\ shape w = (M - j)%nat :: rest
    /\ rows w = drop j (rows h).
Proof.
  intros Hh Hshape Hk. unfold history_window. rewrite Hk, Hh.
  unfold arr_slice_from. rewrite Hshape.
  assert (Hstart : slice_start M (- - Z.of_nat j) = Nat.min j M).
  { unfold slice_start. destruct (Z.ltb_spec (- - Z.of_nat j) 0); lia. }
  rewrite Hstart. eexists. split; [reflexivity|]. simpl. split.
  - f_equal. lia.
  - unfold rows. rewrite Hshape. simpl. rewrite chunks_drop.
    destruct (decide (j <= M)%nat) as [Hle|Hgt].
    + replace (Nat.min j M) with j by lia. reflexivity.
    + replace (Nat.min j M) with M by lia.
      rewrite !drop_ge; [reflexivity | |]; rewrite chunks_length; lia.
Qed.

Lemma np_std_axis0_empty (w : ndarray) (rest : list nat) :
  shape w = 0%nat :: rest ->
  np_std_axis0 w
  = Ok {| shape := rest; data := replicate (product rest) PrimFloat.nan |}.
Proof.
  intros Hshape. unfold np_std_axis0. rewrite Hshape. simpl.
  unfold umr_sum. destruct (Nat.eqb_spec (product rest) 1) as [Hone | Hne].
  - rewrite Hone. reflexivity.
  - assert (Hmap : forall (f : float -> float) n x,
               map f (replicate n x) = replicate n (f x))
      by (intros f n x; induction n; simpl; congruence).
    simpl. unfold vdiv. rewrite !Hmap. reflexivity.
Qed.

(** X8: a history without rows raises nothing: the diversity scores are
    NaN for every parameter and the lines before the loop go through. *)
Theorem empty_history_scores_nan {rt : Runtime} (st : gmap string pyobj)
    (pp : pyobj) (h : ndarray) (n : nat) :
  valid_state st = true ->
  st !! "parent_pool" = Some pp ->
  dict_get_default st "all_para" pp = OArr h ->
  shape h = [0%nat; n] ->
  exists p,
    prepare st = Ok p
    /\ p_param_diversity p
       = {| shape := [n]; data := replicate n PrimFloat.nan |}.
Proof.
  intros Hv Hpp Hh Hshape.
  destruct (valid_state_prepare st Hv) as (p & pp' & _ & _ & Hp & Hpp' & _ & Hpool & _).
  exists p. split; [exact Hp|].
  destruct (prepare_inv st p Hp) as (_ & _ & _ & w & Hw & Hstd).
  assert (p_parent_pool p = pp) as Hsame by congruence.
  rewrite Hsame in Hw. unfold history_window in Hw. rewrite Hh in Hw.
  destruct (dict_get_default st "most_recent" (OInt 100)); try discriminate.
  unfold arr_slice_from in Hw. rewrite Hshape in Hw. injection Hw as <-.
  rewrite (np_std_axis0_empty _ [n]) in Hstd by reflexivity.
  injection Hstd as <-. simpl. rewrite Nat.mul_1_r. reflexivity.
Qed.

(** ** How the loop ends *)

(** X9: with [max_retries <= 0] the language model is not invoked at all;
    the node prints the notice and returns the fallback state, in which
    ['diversity_report_raw'] is the empty text. *)
Theorem no_attempt_allowed {rt : Runtime} {LM : Type}
    (llm : LM -> list message -> string * LM) (max_retries : Z)
    (st : gmap string pyobj) (o : LM) (pp : pyobj) :
  valid_state st = true ->
  st !! "parent_pool" = Some pp ->
  max_retries <= 0 ->
  let r := diversity_agent_node llm max_retries st o in
  invocations r = []
  /\ oracle_after r = o
  /\ outcome r = Ok (fallback_state st pp "")
  /\ printed r = [fallback_notice].
Proof.
  intros Hv Hpp Hmr r. subst r.
  destruct (valid_state_prepare st Hv) as (p & pp' & _ & _ & Hp & Hpp' & _ & Hpool & _).
  assert (p_parent_pool p = pp) as Hsame by congruence.
  unfold diversity_agent_node. rewrite Hp. unfold retry_loop.
  replace (Z.to_nat max_retries) with 0%nat by lia. simpl.
  rewrite Hsame. repeat split.
Qed.

(** X10: the last answer decides what the node returns.  When it passes
    the check, the node returns what the lines after the loop give for it
    (the arrays of the ['values'], [str] of the rationales, [np.vstack]; an
    exception included) and prints nothing.  When it does not, all [max_retries] attempts were used and the
    node returns the fallback state with that answer as
    ['diversity_report_raw'].  Without any answer, [max_retries <= 0]. *)
Theorem last_answer_decides {rt : Runtime} {LM : Type}
    (llm : LM -> list message -> string * LM) (max_retries : Z)
    (st : gmap string pyobj) (o : LM)
    (pp : ndarray) (pool_size n_vars : nat) :
  valid_state st = true ->
  st !! "parent_pool" = Some (OArr pp) ->
  shape pp = [pool_size; n_vars] ->
  let r := diversity_agent_node llm max_retries st o in
  match last (invocations r) with
  | Some (_, answer) =>
      match validate n_vars pool_size answer with
      | Some items =>
          outcome r = (diverse_pool ← assemble_pool items;
                       Ok (<["diverse_pool" := OArr diverse_pool]> st))
          /\ printed r = []
      | None =>
          outcome r = Ok (fallback_state st (OArr pp) answer)
          /\ printed r = [fallback_notice]
          /\ Z.of_nat (length (invocations r)) = max_retries
      end
  | None =>
      outcome r = Ok (fallback_state st (OArr pp) "")
      /\ printed r = [fallback_notice]
      /\ max_retries <= 0
  end.
Proof.
  intros Hv Hpp Hshape r. subst r.
  destruct (valid_state_prepare st Hv)
    as (p & pp' & m & n & Hp & Hpp' & Hshape' & Hpool & Hm & Hn).
  assert (pp' = pp) as -> by congruence.
  assert (m = pool_size /\ n = n_vars) as [-> ->]
    by (rewrite Hshape in Hshape'; injection Hshape'; auto).
  pose proof (retry_loop_invariant llm max_retries p o)
    as (Htries & Hlen & _ & _ & Hraw & Hsets & _).
  pose proof (retry_loop_exits llm max_retries p o) as Hexit.
  rewrite Hm, Hn in Hsets.
  unfold diversity_agent_node. rewrite Hp.
  set (s := retry_loop llm max_retries p o) in *.
  unfold loop_cond in Hexit.
  destruct (sets s) as [items|] eqn:Hs; simpl.
  - destruct (last (calls s)) as [[msgs answer]|]; [|discriminate].
    rewrite <- Hsets. split; reflexivity.
  - apply Z.ltb_ge in Hexit. rewrite Hraw, Hpool. rewrite fmap_last.
    destruct (last (calls s)) as [[msgs answer]|] eqn:Hlast; simpl.
    + rewrite <- Hsets. repeat split.
      assert (length (calls s) <> 0)%nat
        by (destruct (calls s); [discriminate | simpl; lia]).
      lia.
    + repeat split. apply last_None in Hlast. rewrite Hlast in Hlen.
      simpl in Hlen. lia.
Qed.

(** ** Answers that pass the check and do not give a pool of the expected
    shape *)

Lemma map_result_raise {A B} (f : A -> result B) (l : list A) (x : A) :
  x ∈ l -> is_ok (f x) = false -> is_ok (map_result f l) = false.
Proof.
  intros Hx Hfx. induction l as [|y l IH]; [by apply not_elem_of_nil in Hx|].
  simpl. apply elem_of_cons in Hx as [<-|Hx].
  - destruct (f x); [discriminate | reflexivity].
  - destruct (f y); [|reflexivity].
    specialize (IH Hx). destruct (map_result f l); [discriminate | reflexivity].
Qed.

Lemma np_array_float_entry_raise {rt : Runtime} (v : pyval) (l : list pyval)
    (x : pyval) :
  v = PList l \/ v = PTuple l ->
  x ∈ l ->
  is_sequence x = false ->
  is_ok (scalar_to_float x) = false ->
  is_ok (np_array_float v) = false.
Proof.
  intros Hv Hx Hseq Hbad.
  assert (Hx' : is_ok (np_array_float x) = false).
  { assert (Hnp : np_array_float x
                  = match scalar_to_float x with
                    | Raise e => Raise e
                    | Ok y => Ok {| shape := []; data := [y] |}
                    end)
      by (destruct x; try discriminate; reflexivity).
    rewrite Hnp. destruct (scalar_to_float x); [discriminate | reflexivity]. }
  pose proof (map_result_raise np_array_float l x Hx Hx') as Hl.
  destruct Hv as [-> | ->];
    [rewrite np_array_float_list | rewrite np_array_float_tuple];
    destruct (map_result np_array_float l); [discriminate | reflexivity
                                            | discriminate | reflexivity].
Qed.

Lemma assemble_pool_entry_raise {rt : Runtime} (items : list pyval)
    (item : pyval) (l : list pyval) (x : pyval) :
  item ∈ items ->
  values_of item = Some l ->
  x ∈ l ->
  is_sequence x = false ->
  is_ok (scalar_to_float x) = false ->
  is_ok (assemble_pool items) = false.
Proof.
  intros Hitem Hl Hx Hseq Hbad. unfold assemble_pool.
  assert (Hraise : is_ok (v ← item_values item; np_array_float v) = false).
  { unfold values_of in Hl. destruct item; try discriminate. simpl.
    destruct (lit_getitem kvs "values") as [v|]; [|discriminate]. simpl.
    apply (np_array_float_entry_raise v l x); try assumption.
    destruct v; try discriminate; injection Hl as ->; auto. }
  pose proof (map_result_raise
                (fun item => v ← item_values item; np_array_float v)
                items item Hitem Hraise) as Hmap.
  simpl.
  destruct (map_result
              (fun item => v ← item_values item; np_array_float v) items);
    [discriminate | reflexivity].
Qed.

(** X11: when the accepted answer holds, in the ['values'] of some item, an
    entry that is not a list or tuple and that [float] cannot convert, the
    node raises and returns no state. *)
Theorem non_coercible_entry_raises {rt : Runtime} {LM : Type}
    (llm : LM -> list message -> string * LM) (max_retries : Z)
    (st : gmap string pyobj) (o : LM)
    (pp : ndarray) (pool_size n_vars : nat)
    (answer : string) (items : list pyval)
    (item : pyval) (l : list pyval) (x : pyval) :
  valid_state st = true ->
  st !! "parent_pool" = Some (OArr pp) ->
  shape pp = [pool_size; n_vars] ->
  1 <= max_retries ->
  (forall msgs, fst (llm o msgs) = answer) ->
  validate n_vars pool_size answer = Some items ->
  item ∈ items ->
  values_of item = Some l ->
  x ∈ l ->
  is_sequence x = false ->
  is_ok (scalar_to_float x) = false ->
  exists e,
    outcome (diversity_agent_node llm max_retries st o) = Raise e.
Proof.
  intros Hv Hpp Hshape Hmr Hanswer Hvalid Hitem Hl Hx Hseq Hbad.
  destruct (valid_state_prepare st Hv)
    as (p & pp' & m & n & Hp & Hpp' & Hshape' & Hpool & Hm & Hn).
  assert (pp' = pp) as -> by congruence.
  assert (m = pool_size /\ n = n_vars) as [-> ->]
    by (rewrite Hshape in Hshape'; injection Hshape'; auto).
  rewrite (node_outcome_first_valid llm max_retries st o p items Hp Hmr)
    by (rewrite Hanswer, Hm, Hn; assumption).
  pose proof (assemble_pool_entry_raise items item l x Hitem Hl Hx Hseq Hbad)
    as Hraise.
  destruct (assemble_pool items) as [dp|e]; [discriminate|].
  exists e. reflexivity.
Qed.

(** ** The node on its own result *)

Lemma node_outcome_forms {rt : Runtime} {LM : Type}
    (llm : LM -> list message -> string * LM) (max_retries : Z)
    (st : gmap string pyobj) (o : LM) (st' : gmap string pyobj) :
  outcome (diversity_agent_node llm max_retries st o) = Ok st' ->
  (exists dp, st' = <["diverse_pool" := OArr dp]> st)
  \/ (exists pp raw, st' = fallback_state st pp raw).
Proof.
  unfold diversity_agent_node.
  destruct (prepare st) as [p|e]; [|discriminate].
  destruct (sets (retry_loop llm max_retries p o)) as [items|]; simpl.
  - intros Hout. apply bind_ok in Hout as (dp & _ & [= <-]). eauto.
  - intros [= <-]. right. eauto.
Qed.

Lemma written_keys_not_read {rt : Runtime} {LM : Type}
    (llm : LM -> list message -> string * LM) (max_retries : Z)
    (st : gmap string pyobj) (o : LM) (st' : gmap string pyobj) :
  outcome (diversity_agent_node llm max_retries st o) = Ok st' ->
  forall k, k ∈ input_keys -> st' !! k = st !! k.
Proof.
  intros Hout k Hk. apply list_elem_of_In in Hk. simpl in Hk.
  destruct (node_outcome_forms llm max_retries st o st' Hout)
    as [(dp & ->) | (pp & raw & ->)]; unfold fallback_state;
    repeat (destruct Hk as [<-|Hk]; [lookups; reflexivity|]); destruct Hk.
Qed.

(** X12: the node reads none of the keys it writes.  The state it returns
    has the documented shape exactly when the input has, and a call of the
    node on the returned state, with any language model, makes the same
    invocations as that call on the input state. *)
Theorem returned_state_asks_the_same {rt : Runtime} {LM LM2 : Type}
    (llm : LM -> list message -> string * LM) (max_retries : Z)
    (st : gmap string pyobj) (o : LM) (st' : gmap string pyobj)
    (llm2 : LM2 -> list message -> string * LM2) (max_retries2 : Z) (o2 : LM2) :
  outcome (diversity_agent_node llm max_retries st o) = Ok st' ->
  valid_state st' = valid_state st
  /\ invocations (diversity_agent_node llm2 max_retries2 st' o2)
     = invocations (diversity_agent_node llm2 max_retries2 st o2).
Proof.
  intros Hout.
  pose proof (written_keys_not_read llm max_retries st o st' Hout) as Hkeys.
  split.
  - unfold valid_state.
    rewrite !Hkeys by (apply list_elem_of_In; simpl; auto 10). reflexivity.
  - apply node_invocations_prepare, prepare_agree. exact Hkeys.
Qed.

Section Nested.
Context {rt : Runtime}.

Lemma flat_row_array (m : nat) (v : pyval) :
  flat_row m v = true ->
  exists row, length row = m /\ np_array_float v = Ok (row_array m row).
Proof.
  unfold flat_row. intros Hv.
  assert (Hes : exists es, (v = PList es \/ v = PTuple es)
                           /\ length es = m
                           /\ forallb numeric_coercible es = true).
  { destruct v; try discriminate;
      apply andb_prop in Hv as [Hlen%Nat.eqb_eq Hall]; eauto 6. }
  destruct Hes as (es & Hform & Hlen & Hall).
  destruct (np_array_float_row v es Hform Hall) as (row & _ & Hrowlen & Harr).
  exists row. split; [lia|]. rewrite Harr, Hlen. reflexivity.
Qed.

Lemma flat_rows_arrays (m : nat) (l : list pyval) :
  forallb (flat_row m) l = true ->
  exists rows,
    length rows = length l
    /\ map_result np_array_float l = Ok (map (row_array m) rows).
Proof.
  induction l as [|v l IH]; intros Hall.
  - exists []. auto.
  - simpl in Hall. apply andb_prop in Hall as [Hv Hl].
    destruct (IH Hl) as (rows & Hlen & Hmap).
    destruct (flat_row_array m v Hv) as (row & _ & Harr).
    exists (row :: rows). simpl. rewrite Harr, Hmap. split; [lia | reflexivity].
Qed.

Lemma stack_row_arrays (m : nat) (rows : list (list float)) :
  rows <> [] ->
  stack_subarrays (map (row_array m) rows)
  = Ok {| shape := [length rows; m]; data := concat rows |}.
Proof.
  intros Hne.
  assert (Hdata : forall rs, concat (map data (map (row_array m) rs)) = concat rs).
  { induction rs as [|r rs IH]; simpl; [reflexivity | by rewrite IH]. }
  destruct rows as [|row rows]; [done|].
  unfold stack_subarrays. rewrite Hdata, length_map. cbn [map].
  match goal with
  | |- (if ?c then _ else _) = _ => assert (Hc : c = true)
  end.
  { apply forallb_forall. intros b Hb.
    change (row_array m row :: map (row_array m) rows)
      with (map (row_array m) (row :: rows)) in Hb.
    apply in_map_iff in Hb as (y & <- & _). apply bool_decide_eq_true.
    reflexivity. }
  rewrite Hc. reflexivity.
Qed.

Lemma nested_candidate_array (n m : nat) (item : pyval) :
  (1 <= n)%nat ->
  nested_candidate n m item = true ->
  exists a,
    shape a = [n; m]
    /\ (v ← item_values item; np_array_float v) = Ok a.
Proof.
  unfold nested_candidate. intros Hn [_ Hvalues]%andb_prop.
  destruct (values_of item) as [l|] eqn:Hl; [|discriminate].
  apply andb_prop in Hvalues as [Hlen%Nat.eqb_eq Hall].
  destruct (flat_rows_arrays m l Hall) as (rows & Hrowslen & Hmap).
  unfold values_of in Hl. destruct item; try discriminate.
  destruct (lit_getitem kvs "values") as [v|] eqn:Hget; [|discriminate].
  exists {| shape := [length rows; m]; data := concat rows |}.
  split; [simpl; congruence|].
  simpl. rewrite Hget. simpl.
  assert (Hne : rows <> []) by (destruct rows; [simpl in *; lia | done]).
  destruct v; try discriminate; injection Hl as ->;
    [rewrite np_array_float_tuple | rewrite np_array_float_list];
    rewrite Hmap; apply stack_row_arrays; assumption.
Qed.

Lemma nested_candidates_arrays (n m : nat) (items : list pyval) :
  (1 <= n)%nat ->
  forallb (nested_candidate n m) items = true ->
  exists mats,
    length mats = length items
    /\ Forall (fun a => shape a = [n; m]) mats
    /\ map_result (fun item => v ← item_values item; np_array_float v) items
       = Ok mats.
Proof.
  intros Hn. induction items as [|item items IH]; intros Hall.
  - exists []. repeat split. constructor.
  - simpl in Hall. apply andb_prop in Hall as [Hitem Hitems].
    destruct (IH Hitems) as (mats & Hlen & Hshapes & Hmap).
    destruct (nested_candidate_array n m item Hn Hitem) as (a & Hshape & Harr).
    exists (a :: mats). simpl. rewrite Harr, Hmap.
    repeat split; [lia | constructor; assumption].
Qed.

Lemma np_vstack_matrices (n m : nat) (mats : list ndarray) :
  mats <> [] ->
  Forall (fun a => shape a = [n; m]) mats ->
  exists dp,
    np_vstack mats = Ok dp /\ shape dp = [(length mats * n)%nat; m].
Proof.
  intros Hne Hshapes. unfold np_vstack.
  assert (H2d : map atleast_2d mats = mats).
  { clear Hne. induction Hshapes as [|a mats Ha Hmats IH]; [reflexivity|].
    simpl. rewrite IH. f_equal. unfold atleast_2d. rewrite Ha. reflexivity. }
  rewrite H2d.
  assert (Hcount : fold_right (fun b k => (hd 0 (shape b) + k)%nat) 0%nat mats
                   = (length mats * n)%nat).
  { clear Hne H2d. induction Hshapes as [|a mats Ha Hmats IH];
      [reflexivity|]. simpl. rewrite IH, Ha. reflexivity. }
  destruct mats as [|a rest]; [done|].
  apply Forall_cons in Hshapes as [Ha Hrest].
  match goal with
  | |- exists dp, (if ?c then _ else _) = _ /\ _ => assert (Hc : c = true)
  end.
  { apply forallb_forall. intros b Hb%list_elem_of_In.
    rewrite Forall_forall in Hrest. rewrite (Hrest b Hb), Ha.
    apply bool_decide_eq_true. reflexivity. }
  rewrite Hc. eexists. split; [reflexivity|].
  cbn [shape]. rewrite Hcount, Ha. reflexivity.
Qed.

End Nested.

(** X13: an answer whose ['values'] are [n_vars] lists of [m] numbers each,
    and whose rationales [str] can write, passes the check, and the node
    returns, without an exception, a ['diverse_pool'] of shape
    [(pool_size * n_vars, m)] instead of [(pool_size, n_vars)]. *)
Theorem nested_values_change_the_shape {rt : Runtime} {LM : Type}
    (llm : LM -> list message -> string * LM) (max_retries : Z)
    (st : gmap string pyobj) (o : LM)
    (pp : ndarray) (pool_size n_vars m : nat)
    (answer : string) (items : list pyval) :
  valid_state st = true ->
  st !! "parent_pool" = Some (OArr pp) ->
  shape pp = [pool_size; n_vars] ->
  1 <= max_retries ->
  (1 <= pool_size)%nat ->
  (1 <= n_vars)%nat ->
  (forall msgs, fst (llm o msgs) = answer) ->
  literal_eval (str_strip answer) = Some (PList items) ->
  length items = pool_size ->
  forallb (nested_candidate n_vars m) items = true ->
  forallb rationale_prints items = true ->
  exists dp st',
    outcome (diversity_agent_node llm max_retries st o) = Ok st'
    /\ st' !! "diverse_pool" = Some (OArr dp)
    /\ shape dp = [(pool_size * n_vars)%nat; m].
Proof.
  intros Hv Hpp Hshape Hmr Hpool Hn Hanswer Hparse Hlen Hitems Hprint.
  destruct (valid_state_prepare st Hv)
    as (p & pp' & k & n & Hp & Hpp' & Hshape' & Hparent & Hk & Hn').
  assert (pp' = pp) as -> by congruence.
  assert (k = pool_size /\ n = n_vars) as [-> ->]
    by (rewrite Hshape in Hshape'; injection Hshape'; auto).
  assert (Hvalid : validate n_vars pool_size answer = Some items).
  { apply validate_complete; try assumption.
    apply Forall_forall. intros item Hitem%list_elem_of_In.
    rewrite forallb_forall in Hitems. specialize (Hitems item Hitem).
    unfold nested_candidate in Hitems.
    apply andb_prop in Hitems as [Hrat Hvalues]. split; [exact Hrat|].
    destruct (values_of item) as [l|]; [|discriminate].
    apply andb_prop in Hvalues as [Hl%Nat.eqb_eq _]. eauto. }
  rewrite (node_outcome_first_valid llm max_retries st o p items Hp Hmr)
    by (rewrite Hanswer, Hk, Hn'; assumption).
  destruct (nested_candidates_arrays n_vars m items Hn Hitems)
    as (mats & Hmatslen & Hshapes & Hmap).
  destruct (np_vstack_matrices n_vars m mats) as (dp & Hstack & Hdp);
    [destruct mats; [simpl in *; lia | done] | assumption |].
  destruct (rationales_print_str items Hprint) as [texts Htexts].
  exists dp. eexists. unfold assemble_pool. rewrite Hmap. simpl.
  rewrite Htexts. simpl.
  rewrite Hstack. simpl. split; [reflexivity|].
  split; [apply lookup_insert_eq|]. rewrite Hdp. congruence.
Qed.

(** ** The text of the bounds *)

Lemma reduce_float_member (op : float -> float -> float) (d : list float) :
  (forall a b, op a b = a \/ op a b = b) ->
  d <> [] ->
  exists x, x ∈ d /\ reduce_float op d = Ok x.
Proof.
  intros Hop Hne. destruct d as [|x d]; [done|]. simpl.
  assert (Hfold : forall l acc, fold_left op l acc = acc
                                \/ fold_left op l acc ∈ l).
  { induction l as [|y l IH]; intros acc; simpl; [auto|].
    destruct (IH (op acc y)) as [Heq|Hin].
    - rewrite Heq. destruct (Hop acc y) as [-> | ->]; [auto|].
      right. apply list_elem_of_here.
    - right. apply list_elem_of_further. assumption. }
  exists (fold_left op d x). split; [|reflexivity].
  destruct (Hfold d x) as [-> | Hin];
    [apply list_elem_of_here | apply list_elem_of_further; assumption].
Qed.

(** X14: per-parameter bounds are shown to the language model as one
    interval: the text of the bounds is [[lo, hi]] where [lo] is an entry of
    the lower bounds and [hi] an entry of the upper bounds. *)
Theorem bounds_reminder_is_one_interval {rt : Runtime}
    (st : gmap string pyobj) (lower upper : ndarray) :
  st !! "bounds" = Some (OTuple [OArr lower; OArr upper]) ->
  data lower <> [] ->
  data upper <> [] ->
  exists lo hi,
    lo ∈ data lower
    /\ hi ∈ data upper
    /\ bounds_str (dict_get_default st "bounds" ONone)
       = Ok ("[" +:+ float_repr lo +:+ ", " +:+ float_repr hi +:+ "]").
Proof.
  intros Hb Hlo Hhi. unfold dict_get_default. rewrite Hb. simpl.
  destruct (reduce_float_member np_minimum (data lower)) as (lo & Hlo_in & Hlo_eq);
    [|assumption|].
  { intros a b. unfold np_minimum.
    destruct (is_nan a); [auto|]. destruct (a <? b)%float; auto. }
  destruct (reduce_float_member np_maximum (data upper)) as (hi & Hhi_in & Hhi_eq);
    [|assumption|].
  { intros a b. unfold np_maximum.
    destruct (is_nan a); [auto|]. destruct (b <? a)%float; auto. }
  exists lo, hi. unfold bounds_str. simpl. rewrite Hlo_eq. simpl.
  rewrite Hhi_eq. simpl. auto.
Qed.

(** X15: for a parent pool without candidates the answer [[]] passes the
    check, and [np.vstack] of no array then raises [ValueError], after one
    invocation. *)
Theorem empty_pool_answer_raises {rt : Runtime} {LM : Type}
    (llm : LM -> list message -> string * LM) (max_retries : Z)
    (st : gmap string pyobj) (o : LM)
    (pp : ndarray) (n_vars : nat) (answer : string) :
  valid_state st = true ->
  st !! "parent_pool" = Some (OArr pp) ->
  shape pp = [0%nat; n_vars] ->
  1 <= max_retries ->
  (forall msgs, fst (llm o msgs) = answer) ->
  literal_eval (str_strip answer) = Some (PList []) ->
  let r := diversity_agent_node llm max_retries st o in
  validate n_vars 0 answer = Some []
  /\ outcome r = Raise ValueError
  /\ length (invocations r) = 1%nat.
Proof.
  intros Hv Hpp Hshape Hmr Hanswer Hparse r. subst r.
  destruct (valid_state_prepare st Hv)
    as (p & pp' & k & n & Hp & Hpp' & Hshape' & Hparent & Hk & Hn).
  assert (pp' = pp) as -> by congruence.
  assert (k = 0%nat /\ n = n_vars) as [-> ->]
    by (rewrite Hshape in Hshape'; injection Hshape'; auto).
  assert (Hvalid : validate n_vars 0 answer = Some [])
    by (unfold validate; rewrite Hparse; reflexivity).
  split; [exact Hvalid|]. split.
  - rewrite (node_outcome_first_valid llm max_retries st o p [] Hp Hmr)
      by (rewrite Hanswer, Hk, Hn; assumption).
    reflexivity.
  - rewrite (node_invocations llm max_retries st o p Hp).
    destruct (retry_loop_first_turn llm max_retries p o Hmr) as [fuel ->].
    assert (Hsets : sets (loop_body llm p (loop_init p o)) = Some []).
    { rewrite loop_body_unfold. simpl. rewrite Hanswer, Hk, Hn. exact Hvalid. }
    assert (Hstop : while_loop llm max_retries fuel p
                      (loop_body llm p (loop_init p o))
                    = loop_body llm p (loop_init p o)).
    { destruct fuel; [reflexivity|]. simpl. unfold loop_cond. rewrite Hsets.
      reflexivity. }
    rewrite Hstop, loop_body_unfold. reflexivity.
Qed.

(** ** The invocations of one call *)

Lemma while_loop_stop {rt : Runtime} {LM : Type}
    (llm : LM -> list message -> string * LM) (max_retries : Z)
    (fuel : nat) (p : prepared) (s : loop_state) :
  loop_cond max_retries s = false ->
  while_loop llm max_retries fuel p s = s.
Proof. intros Hc. destruct fuel; [reflexivity|]. simpl. rewrite Hc. reflexivity. Qed.

(** X16: a first answer that passes the check ends the loop: the language
    model is invoked once, its state afterwards is the one it reached with
    that invocation, and nothing is printed. *)
Theorem valid_first_answer_ends_the_loop {rt : Runtime} {LM : Type}
    (llm : LM -> list message -> string * LM) (max_retries : Z)
    (st : gmap string pyobj) (o : LM)
    (pp : ndarray) (pool_size n_vars : nat)
    (answer : string) (items : list pyval) :
  valid_state st = true ->
  st !! "parent_pool" = Some (OArr pp) ->
  shape pp = [pool_size; n_vars] ->
  1 <= max_retries ->
  (forall msgs, fst (llm o msgs) = answer) ->
  validate n_vars pool_size answer = Some items ->
  let r := diversity_agent_node llm max_retries st o in
  exists msgs,
    invocations r = [(msgs, answer)]
    /\ oracle_after r = snd (llm o msgs)
    /\ printed r = [].
Proof.
  intros Hv Hpp Hshape Hmr Hanswer Hvalid r. subst r.
  destruct (valid_state_prepare st Hv)
    as (p & pp' & k & n & Hp & Hpp' & Hshape' & Hparent & Hk & Hn).
  assert (pp' = pp) as -> by congruence.
  assert (k = pool_size /\ n = n_vars) as [-> ->]
    by (rewrite Hshape in Hshape'; injection Hshape'; auto).
  exists (conversation (p_system_message p) (p_user_msg p)).
  unfold diversity_agent_node. rewrite Hp.
  destruct (retry_loop_first_turn llm max_retries p o Hmr) as [fuel ->].
  assert (Hbody : loop_body llm p (loop_init p o)
                  = {| tries := 1; sets := Some items; report_raw := answer;
                       system_message := p_system_message p;
                       oracle := snd (llm o (conversation (p_system_message p)
                                                          (p_user_msg p)));
                       calls := [(conversation (p_system_message p)
                                               (p_user_msg p), answer)] |}).
  { rewrite loop_body_unfold. simpl. rewrite Hanswer, Hk, Hn, Hvalid.
    reflexivity. }
  rewrite while_loop_stop by (rewrite Hbody; reflexivity).
  rewrite Hbody. simpl. repeat split.
Qed.



(** X18: [str] of the rationales comes after the loop, outside the [try].
    When the answer is accepted and its ['values'] give arrays, and the
    ['rationale'] of some item holds an int of more than 4300 digits, the
    node raises [ValueError] and returns no state. *)
Theorem unprintable_rationale_raises {rt : Runtime} {LM : Type}
    (llm : LM -> list message -> string * LM) (max_retries : Z)
    (st : gmap string pyobj) (o : LM)
    (pp : ndarray) (pool_size n_vars : nat)
    (answer : string) (items : list pyval) (arrs : list ndarray)
    (item r : pyval) :
  valid_state st = true ->
  st !! "parent_pool" = Some (OArr pp) ->
  shape pp = [pool_size; n_vars] ->
  1 <= max_retries ->
  (forall msgs, fst (llm o msgs) = answer) ->
  validate n_vars pool_size answer = Some items ->
  map_result (fun item => v ← item_values item; np_array_float v) items
  = Ok arrs ->
  item ∈ items ->
  rationale_of item = Some r ->
  repr_raises r = true ->
  outcome (diversity_agent_node llm max_retries st o) = Raise ValueError.
Proof.
  intros Hv Hpp Hshape Hmr Hanswer Hvalid Harrs Hitem Hr Hbad.
  destruct (valid_state_prepare st Hv)
    as (p & pp' & m & n & Hp & Hpp' & Hshape' & Hpool & Hm & Hn).
  assert (pp' = pp) as -> by congruence.
  assert (m = pool_size /\ n = n_vars) as [-> ->]
    by (rewrite Hshape in Hshape'; injection Hshape'; auto).
  rewrite (node_outcome_first_valid llm max_retries st o p items Hp Hmr)
    by (rewrite Hanswer, Hm, Hn; assumption).
  apply validate_shape in Hvalid as (_ & _ & Hitems).
  unfold assemble_pool. rewrite Harrs. simpl.
  rewrite (rationales_str_raise items item r); try assumption; [reflexivity|].
  eapply Forall_impl; [exact Hitems|]. intros x [Hx _]. exact Hx.
Qed.

(** ** The further properties on the examples *)

Lemma missing_summary_entry_witness :
  let r := diversity_agent_node (rt := example_runtime)
             (constant_llm good_answer) 10
             (<["summary" := ODict (delete "pca_loadings" example_summary_map)]>
                example_state) tt in
  outcome r = Raise KeyError /\ invocations r = [].
Proof.
  apply (missing_summary_entry (rt := example_runtime)
           (constant_llm good_answer) 10 example_state tt
           example_summary_map "pca_loadings").
  - vm_compute. reflexivity.
  - vm_compute. reflexivity.
  - apply list_elem_of_In. simpl. auto.
Defined.

Lemma bounds_of_wrong_arity_witness :
  let r := diversity_agent_node (rt := example_runtime)
             (constant_llm good_answer) 10
             (<["bounds" := OTuple [OFloat 0; OFloat 1; OFloat 2]]>
                example_state) tt in
  outcome r = Raise ValueError /\ invocations r = [].
Proof.
  apply (bounds_of_wrong_arity (rt := example_runtime)
           (constant_llm good_answer) 10 example_state tt
           [OFloat 0; OFloat 1; OFloat 2]).
  - vm_compute. reflexivity.
  - simpl. lia.
Defined.

Lemma optional_keys_default_witness :
  let asks := fun s =>
    invocations (diversity_agent_node (rt := example_runtime)
                   (constant_llm bad_answer) 2 s tt) in
  asks (delete "most_recent" example_state)
  = asks (<["most_recent" := OInt 100]> example_state)
  /\ asks (delete "all_para" example_state)
     = asks (<["all_para" := OArr example_pool]> example_state)
  /\ asks (delete "bounds" example_state)
     = asks (<["bounds" := ONone]> example_state)
  /\ asks (delete "budget" example_state)
     = asks (<["budget" := OInt 2]> example_state).
Proof.
  apply (optional_keys_default (rt := example_runtime)
           (constant_llm bad_answer) 2 example_state tt (OArr example_pool)).
  vm_compute. reflexivity.
Defined.

Lemma window_of_short_history_witness :
  history_window example_state (OArr example_pool) = Ok example_pool.
Proof.
  apply (window_of_short_history example_state (OArr example_pool)
           example_pool 2 [2%nat] 100).
  - vm_compute. reflexivity.
  - reflexivity.
  - vm_compute. reflexivity.
  - lia.
Defined.

Lemma negative_window_drops_oldest_witness :
  exists w,
    history_window negative_window_state (matrix 1 1 [0.5]%float) = Ok w
    /\ shape w = [(3 - 1)%nat; 1%nat]
    /\ rows w = drop 1 (rows {| shape := [3; 1]%nat;
                                data := [7; 0; 2]%float |}).
Proof.
  apply (negative_window_drops_oldest negative_window_state
           (matrix 1 1 [0.5]%float)
           {| shape := [3; 1]%nat; data := [7; 0; 2]%float |} 3 [1%nat] 1).
  - vm_compute. reflexivity.
  - reflexivity.
  - vm_compute. reflexivity.
Defined.

Lemma empty_history_scores_nan_witness :
  exists p,
    prepare (rt := example_runtime) empty_history_state = Ok p
    /\ p_param_diversity p
       = {| shape := [2%nat]; data := replicate 2 PrimFloat.nan |}.
Proof.
  apply (empty_history_scores_nan (rt := example_runtime) empty_history_state
           (OArr example_pool) {| shape := [0; 2]%nat; data := [] |} 2).
  - vm_compute. reflexivity.
  - vm_compute. reflexivity.
  - vm_compute. reflexivity.
  - reflexivity.
Defined.

Lemma no_attempt_allowed_witness :
  let r := diversity_agent_node (rt := example_runtime)
             (constant_llm good_answer) 0 example_state tt in
  invocations r = []
  /\ oracle_after r = tt
  /\ outcome r = Ok (fallback_state example_state (OArr example_pool) "")
  /\ printed r = [fallback_notice].
Proof.
  apply (no_attempt_allowed (rt := example_runtime)
           (constant_llm good_answer) 0 example_state tt (OArr example_pool)).
  - vm_compute. reflexivity.
  - vm_compute. reflexivity.
  - lia.
Defined.

Lemma last_answer_decides_witness :
  let r := diversity_agent_node (rt := example_runtime)
             scripted_llm 3 example_state [bad_answer; good_answer] in
  match last (invocations r) with
  | Some (_, answer) =>
      match validate (rt := example_runtime) 2 2 answer with
      | Some items =>
          outcome r = (diverse_pool ← assemble_pool (rt := example_runtime) items;
                       Ok (<["diverse_pool" := OArr diverse_pool]> example_state))
          /\ printed r = []
      | None =>
          outcome r = Ok (fallback_state example_state (OArr example_pool) answer)
          /\ printed r = [fallback_notice]
          /\ Z.of_nat (length (invocations r)) = 3
      end
  | None =>
      outcome r = Ok (fallback_state example_state (OArr example_pool) "")
      /\ printed r = [fallback_notice]
      /\ 3 <= 0
  end.
Proof.
  apply (last_answer_decides (rt := example_runtime) scripted_llm 3
           example_state [bad_answer; good_answer] example_pool 2 2).
  - vm_compute. reflexivity.
  - vm_compute. reflexivity.
  - reflexivity.
Defined.

Lemma non_coercible_entry_raises_witness :
  exists e,
    outcome (diversity_agent_node (rt := example_runtime)
               (constant_llm non_numeric_answer) 10 small_state tt)
    = Raise e.
Proof.
  apply (non_coercible_entry_raises (rt := example_runtime)
           (constant_llm non_numeric_answer) 10 small_state tt
           {| shape := [1; 1]%nat; data := [0.5]%float |} 1 1
           non_numeric_answer
           [PDict [(PStr "values", PList [PStr "abc"]);
                   (PStr "rationale", PStr "r")]]
           (PDict [(PStr "values", PList [PStr "abc"]);
                   (PStr "rationale", PStr "r")])
           [PStr "abc"] (PStr "abc")).
  - vm_compute. reflexivity.
  - vm_compute. reflexivity.
  - reflexivity.
  - lia.
  - intros msgs. reflexivity.
  - vm_compute. reflexivity.
  - apply list_elem_of_here.
  - reflexivity.
  - apply list_elem_of_here.
  - reflexivity.
  - vm_compute. reflexivity.
Defined.

Lemma returned_state_asks_the_same_witness :
  let st' := fallback_state example_state (OArr example_pool) bad_answer in
  valid_state st' = valid_state example_state
  /\ invocations (diversity_agent_node (rt := example_runtime)
                    scripted_llm 3 st' [bad_answer; good_answer])
     = invocations (diversity_agent_node (rt := example_runtime)
                      scripted_llm 3 example_state [bad_answer; good_answer]).
Proof.
  apply (returned_state_asks_the_same (rt := example_runtime)
           (constant_llm bad_answer) 1 example_state tt
           (fallback_state example_state (OArr example_pool) bad_answer)
           scripted_llm 3 [bad_answer; good_answer]).
  vm_compute. reflexivity.
Defined.

Lemma nested_values_change_the_shape_witness :
  exists dp st',
    outcome (diversity_agent_node (rt := example_runtime)
               (constant_llm nested_answer) 10 example_state tt) = Ok st'
    /\ st' !! "diverse_pool" = Some (OArr dp)
    /\ shape dp = [(2 * 2)%nat; 3%nat].
Proof.
  destruct (PyLiteral.literal_eval nested_answer) as [[| | | | | | | | |items| |]|]
    eqn:Hparse; try (vm_compute in Hparse; discriminate).
  apply (nested_values_change_the_shape (rt := example_runtime)
           (constant_llm nested_answer) 10 example_state tt
           example_pool 2 2 3 nested_answer items).
  - vm_compute. reflexivity.
  - vm_compute. reflexivity.
  - reflexivity.
  - lia.
  - lia.
  - lia.
  - intros msgs. reflexivity.
  - exact Hparse.
  - vm_compute in Hparse. injection Hparse as <-. reflexivity.
  - vm_compute in Hparse. injection Hparse as <-. vm_compute. reflexivity.
  - vm_compute in Hparse. injection Hparse as <-. vm_compute. reflexivity.
Defined.

Lemma bounds_reminder_is_one_interval_witness :
  exists lo hi,
    lo ∈ [0.5; 0.25]%float
    /\ hi ∈ [2; 4]%float
    /\ bounds_str (rt := example_runtime)
         (dict_get_default bounded_state "bounds" ONone)
       = Ok ("[" +:+ example_float_repr lo +:+ ", "
                 +:+ example_float_repr hi +:+ "]").
Proof.
  apply (bounds_reminder_is_one_interval (rt := example_runtime) bounded_state
           {| shape := [2%nat]; data := [0.5; 0.25]%float |}
           {| shape := [2%nat]; data := [2; 4]%float |}).
  - vm_compute. reflexivity.
  - discriminate.
  - discriminate.
Defined.

Lemma empty_pool_answer_raises_witness :
  let r := diversity_agent_node (rt := example_runtime)
             (constant_llm "[]") 10 empty_pool_state tt in
  validate (rt := example_runtime) 2 0 "[]" = Some []
  /\ outcome r = Raise ValueError
  /\ length (invocations r) = 1%nat.
Proof.
  apply (empty_pool_answer_raises (rt := example_runtime)
           (constant_llm "[]") 10 empty_pool_state tt
           {| shape := [0; 2]%nat; data := [] |} 2 "[]").
  - vm_compute. reflexivity.
  - vm_compute. reflexivity.
  - reflexivity.
  - lia.
  - intros msgs. reflexivity.
  - vm_compute. reflexivity.
Defined.

Lemma valid_first_answer_ends_the_loop_witness :
  let r := diversity_agent_node (rt := example_runtime)
             (constant_llm good_answer) 10 example_state tt in
  exists msgs,
    invocations r = [(msgs, good_answer)]
    /\ oracle_after r = snd (constant_llm good_answer tt msgs)
    /\ printed r = [].
Proof.
  destruct (validate (rt := example_runtime) 2 2 good_answer) as [items|]
    eqn:Hvalid; [|vm_compute in Hvalid; discriminate].
  apply (valid_first_answer_ends_the_loop (rt := example_runtime)
           (constant_llm good_answer) 10 example_state tt example_pool 2 2
           good_answer items).
  - vm_compute. reflexivity.
  - vm_compute. reflexivity.
  - reflexivity.
  - lia.
  - intros msgs. reflexivity.
  - exact Hvalid.
Defined.


Lemma unprintable_rationale_raises_witness :
  outcome (diversity_agent_node (rt := example_runtime)
             (constant_llm huge_int_answer) 10 small_state tt)
  = Raise ValueError.
Proof.
  apply (unprintable_rationale_raises (rt := example_runtime)
           (constant_llm huge_int_answer) 10 small_state tt
           {| shape := [1; 1]%nat; data := [0.5]%float |} 1 1
           huge_int_answer
           [PDict [(PStr "values", PList [PFloat 0.5]);
                   (PStr "rationale", PInt (16 ^ 3572))]]
           [{| shape := [1%nat]; data := [0.5]%float |}]
           (PDict [(PStr "values", PList [PFloat 0.5]);
                   (PStr "rationale", PInt (16 ^ 3572))])
           (PInt (16 ^ 3572))).
  - vm_compute. reflexivity.
  - vm_compute. reflexivity.
  - reflexivity.
  - lia.
  - intros msgs. reflexivity.
  - vm_compute. reflexivity.
  - vm_compute. reflexivity.
  - apply list_elem_of_here.
  - reflexivity.
  - vm_compute. reflexivity.
Defined.
